(** * Library of Jormungandr: CSV structure repair

    A shallow embedding of [core/csv_repair_tool.py] (class [CSVRepairTool])
    and of the prompts of [core/user_input.py] it drives, followed by the
    properties of the quote-aware field counter, the quote balance checker,
    the mismatch detector and the interactive repair session.  The menu and
    the issue prompt of [core/user_input.py], [BaseTool.run] of
    [core/base_tool.py] and the whitespace cleaners of [core/utils.py]
    follow, with their properties.

    Conventions of the embedding.
    - A Python [str] is a [string]; every [ascii] stands for the code point
      of the same number (0..255).  Python [int]s are [Z].
    - [input()] and [prompt_toolkit.prompt()] read the next [event] of the
      terminal: a submitted line, or Ctrl+C.  An exhausted terminal is end of
      file ([EOFError]).
    - The list object [lines], the logger, the attribute [repairs_made] and
      the presence of the [prompt_toolkit] package are fields of the [world]
      that the methods thread; [print] output is not recorded.
    - The interpreter's recursion limit is a parameter of
      [confirm_action_limited] and [choose_from_list_limited]; the other
      definitions take it not to be reached.
    - The built-in [int], the text of a caught exception and the abstract
      methods of [BaseTool] are parameters of the definitions that use
      them. *)

From Stdlib Require Import ZArith Lia Bool Ascii String DecimalString Sorted.
From stdpp Require Import base list strings gmap.

Local Open Scope Z_scope.

(** ** Python string primitives *)

Module PyStr.

Definition quote : ascii := "034"%char.
Definition comma : ascii := ","%char.
Definition newline : string := String "010"%char EmptyString.

(** The one-character string made of a double quote. *)
Definition dquote : string := String quote EmptyString.

(** [str.isspace] on one character, for code points below 256:
    TAB..CR, FS..US, space, NEL and NBSP. *)
Definition isspace (c : ascii) : bool :=
  let n := N_of_ascii c in
  ((9 <=? n) && (n <=? 13) || (28 <=? n) && (n <=? 32)
   || (n =? 133) || (n =? 160))%N.

Fixpoint lstrip (s : string) : string :=
  match s with
  | EmptyString => EmptyString
  | String c rest => if isspace c then lstrip rest else s
  end.

Fixpoint rstrip (s : string) : string :=
  match s with
  | EmptyString => EmptyString
  | String c rest =>
      match rstrip rest with
      | EmptyString => if isspace c then EmptyString else String c EmptyString
      | kept => String c kept
      end
  end.

(** [s.strip()] *)
Definition strip (s : string) : string := rstrip (lstrip s).

(** [str.lower] on one character: A..Z and the Latin-1 capitals
    (192..222 but for the multiplication sign 215) move up by 32. *)
Definition lower_char (c : ascii) : ascii :=
  let n := N_of_ascii c in
  if ((65 <=? n) && (n <=? 90)
      || (192 <=? n) && (n <=? 222) && negb (n =? 215))%N
  then ascii_of_N (n + 32) else c.

Fixpoint lower (s : string) : string :=
  match s with
  | EmptyString => EmptyString
  | String c rest => String (lower_char c) (lower rest)
  end.

(** [s.count(c)] for a one-character needle [c]. *)
Fixpoint count (c : ascii) (s : string) : Z :=
  match s with
  | EmptyString => 0
  | String d rest => (if Ascii.eqb d c then 1 else 0) + count c rest
  end.

(** [not s]: the empty string is falsy. *)
Definition falsy (s : string) : bool :=
  match s with EmptyString => true | _ => false end.

(** [s in options] for a list of strings. *)
Definition member (s : string) (options : list string) : bool :=
  existsb (String.eqb s) options.

(** [str(n)] for an [int]. *)
Definition str (n : Z) : string := NilZero.string_of_int (Z.to_int n).

(** [''.join(parts)] *)
Definition join (parts : list string) : string := String.concat "" parts.

(** [not l] for a list: the empty list is falsy. *)
Definition falsy_list {A} (l : list A) : bool :=
  match l with [] => true | _ => false end.

(** [len(l)] *)
Definition len {A} (l : list A) : Z := Z.of_nat (length l).

End PyStr.

Import PyStr.

(** ** CSV line predicates of [CSVRepairTool] *)

(** [_has_unbalanced_quotes(self, line)] *)
Definition _has_unbalanced_quotes (line : string) : bool :=
  let quote_count := count quote line in
  negb (quote_count mod 2 =? 0).

(** The [for char in line] loop of [_count_fields_respecting_quotes],
    started in the state [(inside_quotes, field_count)]. *)
Fixpoint count_fields_loop (inside_quotes : bool) (field_count : Z)
    (line : string) : Z :=
  match line with
  | EmptyString => field_count
  | String char rest =>
      if Ascii.eqb char quote then
        count_fields_loop (negb inside_quotes) field_count rest
      else if Ascii.eqb char comma && negb inside_quotes then
        count_fields_loop inside_quotes (field_count + 1) rest
      else
        count_fields_loop inside_quotes field_count rest
  end.

(** [_count_fields_respecting_quotes(self, line)] *)
Definition _count_fields_respecting_quotes (line : string) : Z :=
  count_fields_loop false 1 line.

(** ** Effects: terminal, exceptions, logger, the shared [lines] list *)

Inductive event : Type :=
| Line (s : string)   (* the text handed back when the user presses Enter *)
| CtrlC.              (* the user interrupts the read *)

Inductive exn : Type :=
| EOFError | KeyboardInterrupt | ImportError | IndexError | RecursionError.

Inductive level : Type := INFO | ERROR.

Record world : Type := World {
  stdin : list event;                (* what the user will still type *)
  has_prompt_toolkit : bool;         (* can [prompt_toolkit] be imported *)
  lines_cell : list string;          (* contents of the list object [lines] *)
  logger : list (level * string);    (* records of [self.logger], oldest first *)
  repairs_made : Z                   (* [self.repairs_made] *)
}.

Inductive res (A : Type) : Type :=
| Ret (a : A)
| Raise (e : exn).
Arguments Ret {A} a.
Arguments Raise {A} e.

Definition M (A : Type) : Type := world -> res A * world.

Definition ret {A} (a : A) : M A := fun w => (Ret a, w).

Definition raise {A} (e : exn) : M A := fun w => (Raise e, w).

Definition bind {A B} (m : M A) (k : A -> M B) : M B :=
  fun w =>
    match m w with
    | (Ret a, w') => k a w'
    | (Raise e, w') => (Raise e, w')
    end.

Notation "x <- m ;; k" := (bind m (fun x => k))
  (at level 100, m at next level, right associativity).
Notation "m ;; k" := (bind m (fun _ => k))
  (at level 100, right associativity).

Definition exn_eqb (a b : exn) : bool :=
  match a, b with
  | EOFError, EOFError | KeyboardInterrupt, KeyboardInterrupt
  | ImportError, ImportError | IndexError, IndexError
  | RecursionError, RecursionError => true
  | _, _ => false
  end.

(** [try: body  except e: handler] *)
Definition try_except {A} (body : M A) (e : exn) (handler : M A) : M A :=
  fun w =>
    match body w with
    | (Raise e', w') => if exn_eqb e' e then handler w' else (Raise e', w')
    | done => done
    end.

Definition set_stdin (pending : list event) (w : world) : world :=
  World pending (has_prompt_toolkit w) (lines_cell w) (logger w) (repairs_made w).

Definition set_lines (ls : list string) (w : world) : world :=
  World (stdin w) (has_prompt_toolkit w) ls (logger w) (repairs_made w).

Definition add_record (r : level * string) (w : world) : world :=
  World (stdin w) (has_prompt_toolkit w) (lines_cell w) (logger w ++ [r])
        (repairs_made w).

Definition set_repairs_made (n : Z) (w : world) : world :=
  World (stdin w) (has_prompt_toolkit w) (lines_cell w) (logger w) n.

(** One blocking read of the terminal. *)
Definition read_event : M string :=
  fun w =>
    match stdin w with
    | [] => (Raise EOFError, w)
    | Line s :: pending => (Ret s, set_stdin pending w)
    | CtrlC :: pending => (Raise KeyboardInterrupt, set_stdin pending w)
    end.

(** [input(prompt_text)] *)
Definition input (prompt_text : string) : M string := read_event.

(** [prompt_toolkit.prompt(message, default=text)]: the user edits the
    prefilled buffer; the line read is the buffer at Enter. *)
Definition prompt (message default : string) : M string := read_event.

(** [from prompt_toolkit import prompt] *)
Definition import_prompt_toolkit : M unit :=
  fun w => if has_prompt_toolkit w then (Ret tt, w) else (Raise ImportError, w).

(** [self.logger.info(msg)], [self.logger.error(msg)] *)
Definition logger_info (msg : string) : M unit :=
  fun w => (Ret tt, add_record (INFO, msg) w).
Definition logger_error (msg : string) : M unit :=
  fun w => (Ret tt, add_record (ERROR, msg) w).

(** [l[i] = v] on a Python list: a negative index counts from the end, an
    index out of range is an [IndexError]. *)
Definition setitem (l : list string) (i : Z) (v : string) : option (list string) :=
  let k := if i <? 0 then i + len l else i in
  if (0 <=? k) && (k <? len l) then Some (<[Z.to_nat k := v]> l) else None.

(** [lines[i] = v] on the shared list object. *)
Definition lines_setitem (i : Z) (v : string) : M unit :=
  fun w =>
    match setitem (lines_cell w) i v with
    | Some ls => (Ret tt, set_lines ls w)
    | None => (Raise IndexError, w)
    end.

(** [self.repairs_made = n] *)
Definition self_set_repairs_made (n : Z) : M unit :=
  fun w => (Ret tt, set_repairs_made n w).

(** Reading the variable [lines]: the current contents of the object. *)
Definition the_lines : M (list string) := fun w => (Ret (lines_cell w), w).

(** A parameter or local variable [lines] is bound to the list [ls]. *)
Definition bind_lines (ls : list string) : M unit :=
  fun w => (Ret tt, set_lines ls w).

(** ** [core/user_input.py] *)

(** What [confirm_action] makes of one typed line: [Some b] answers the
    question, [None] is the "Invalid input" branch, which asks again. *)
Definition confirm_reading (default : bool) (typed : string) : option bool :=
  let response := lower (strip typed) in
  if falsy response then Some default
  else if member response ["y"; "yes"] then Some true
  else if member response ["n"; "no"] then Some false
  else None.

(** [confirm_action] on the pending terminal events.  Each recursive call
    of the source starts with one [input()], so the recursion is on the
    events still to be read.  The interpreter's recursion limit is taken
    not to be reached; [confirm_action_limited_on] has it. *)
Fixpoint confirm_action_on (default : bool) (pending : list event)
    : res bool * list event :=
  match pending with
  | [] => (Raise EOFError, [])
  | CtrlC :: pending' => (Raise KeyboardInterrupt, pending')
  | Line typed :: pending' =>
      match confirm_reading default typed with
      | Some answer => (Ret answer, pending')
      | None => confirm_action_on default pending'
      end
  end.

(** [confirm_action(message, default)] *)
Definition confirm_action (message : string) (default : bool) : M bool :=
  fun w =>
    let (answer, pending) := confirm_action_on default (stdin w) in
    (answer, set_stdin pending w).

(** The rich branch of [edit_text_interactive] (inner [try]). *)
Definition edit_with_prompt_toolkit (text : string) : M (option string) :=
  try_except
    (edited <- prompt "" text ;;
     ret (if falsy edited then None else Some edited))
    KeyboardInterrupt
    (ret None).

(** The [except ImportError] branch of [edit_text_interactive]. *)
Definition edit_with_input (text : string) : M (option string) :=
  typed <- input "> " ;;
  let response := strip typed in
  if falsy response then ret (Some text)
  else if member (lower response) ["cancel"; "c"; "quit"; "q"] then ret None
  else ret (Some response).

(** [edit_text_interactive(text, message)] *)
Definition edit_text_interactive (text message : string) : M (option string) :=
  try_except
    (import_prompt_toolkit ;; edit_with_prompt_toolkit text)
    ImportError
    (edit_with_input text).

(** [edit_line_interactive(line, line_number)] *)
Definition edit_line_interactive (line : string) (line_number : Z)
    : M (option string) :=
  let message :=
    if 0 <? line_number then "Edit CSV line " +:+ str line_number +:+ ":"
    else "Edit this CSV line" in
  edit_text_interactive line message.

(** ** [core/csv_repair_tool.py], class [CSVRepairTool] *)

(** An issue is the tuple [(line_number, line_content, issue_type)]. *)
Definition issue : Type := Z * string * string.

Definition issue_line (iss : issue) : Z := fst (fst iss).

(** The loop [for i, line in enumerate(lines[1:], start=2)] of
    [_detect_field_mismatches]; [i] numbers the first line of [data]. *)
Fixpoint detect_loop (expected_fields i : Z) (data : list string) : list issue :=
  match data with
  | [] => []
  | line :: data' =>
      if falsy (strip line) then
        detect_loop expected_fields (i + 1) data'
      else if _has_unbalanced_quotes line then
        (i, strip line, "Unbalanced quotes")
          :: detect_loop expected_fields (i + 1) data'
      else
        let field_count := _count_fields_respecting_quotes line in
        if negb (field_count =? expected_fields) then
          (i, strip line,
           "Has " +:+ str field_count +:+ " fields, expected "
             +:+ str expected_fields)
            :: detect_loop expected_fields (i + 1) data'
        else
          detect_loop expected_fields (i + 1) data'
  end.

(** [_detect_field_mismatches(self, lines)] *)
Definition _detect_field_mismatches (lines : list string) : M (list issue) :=
  if len lines <? 2 then ret []
  else
    match lines with
    | [] => raise IndexError
    | header :: data =>
        let expected_fields := _count_fields_respecting_quotes header in
        logger_info ("Header has " +:+ str expected_fields +:+ " fields") ;;
        ret (detect_loop expected_fields 2 data)
    end.

(** The loop [for line_num, line_content, issue_desc in issues] of
    [_interactive_repair], followed by its [return lines]. *)
Fixpoint repair_loop (issues : list issue) : M (option (list string)) :=
  match issues with
  | [] => lines <- the_lines ;; ret (Some lines)
  | (line_num, line_content, issue_desc) :: issues' =>
      should_fix <-
        confirm_action ("Do you want to fix line " +:+ str line_num +:+ "?")
                       true ;;
      if negb should_fix then
        logger_info ("Skipping line " +:+ str line_num) ;;
        repair_loop issues'
      else
        fixed_line <- edit_line_interactive line_content line_num ;;
        match fixed_line with
        | None =>
            abort <- confirm_action "Cancel entire repair process?" false ;;
            if abort then ret None else repair_loop issues'
        | Some fixed =>
            lines_setitem (line_num - 1) (fixed +:+ newline) ;;
            logger_info ("Repaired line " +:+ str line_num) ;;
            repair_loop issues'
        end
  end.

(** [_interactive_repair(self, lines, issues)]: the parameter [lines] is the
    caller's list object, mutated in place. *)
Definition _interactive_repair (lines : list string) (issues : list issue)
    : M (option (list string)) :=
  bind_lines lines ;; repair_loop issues.

(** The end of [process]: join the lines back into a single string. *)
Definition process_join (lines : list string) : M (option string) :=
  let repaired_content := join lines in
  logger_info "CSV structure repair complete" ;;
  ret (Some repaired_content).

(** [process(self, filepath)]; [file_lines] is what [f.readlines()] yields
    for the file at [filepath]. *)
Definition process (file_lines : list string) : M (option string) :=
  logger_info "Starting CSV structure repair..." ;;
  let lines := file_lines in
  if falsy_list lines then
    logger_error "CSV file is empty" ;;
    ret None
  else
    logger_info "Detecting field mismatches..." ;;
    issues <- _detect_field_mismatches lines ;;
    if negb (falsy_list issues) then
      logger_info ("Found " +:+ str (len issues) +:+ " lines needing repair") ;;
      repaired <- _interactive_repair lines issues ;;
      match repaired with
      | None =>
          logger_error "User cancelled repair process" ;;
          ret None
      | Some lines =>
          self_set_repairs_made (len issues) ;;
          process_join lines
      end
    else
      logger_info
        "No field mismatches detected! CSV structure looks good. Lucky you!" ;;
      process_join lines.

(** ** Vocabulary of the statements *)

(** How many times the character [c] occurs in [s]. *)
Definition occurrences (c : ascii) (s : string) : nat :=
  count_occ ascii_dec (list_ascii_of_string s) c.

(** Is [s] empty or made of whitespace only? *)
Definition whitespace_only (s : string) : bool :=
  forallb isspace (list_ascii_of_string s).

(** The issues that one data line numbered [i] contributes. *)
Definition line_issues (expected_fields i : Z) (line : string) : list issue :=
  detect_loop expected_fields i [line].

(** Is the issue reported at line number [n]? *)
Definition at_line (n : Z) (iss : issue) : bool := issue_line iss =? n.

(** The logger record that [_interactive_repair] writes when it stores a
    fixed line. *)
Definition repaired_record (n : Z) : level * string :=
  (INFO, "Repaired line " +:+ str n).

(** The terminal of a user who answers "n" at every issue. *)
Definition skip_answers (issues : list issue) : list event :=
  map (fun _ => Line "n") issues.

(** [same_tool w w']: the worlds differ at most in the pending events. *)
Definition same_tool (w w' : world) : Prop :=
  has_prompt_toolkit w' = has_prompt_toolkit w
  /\ lines_cell w' = lines_cell w
  /\ logger w' = logger w
  /\ repairs_made w' = repairs_made w.

(** The same world with [prompt_toolkit] installed ([true]) or not. *)
Definition with_prompt_toolkit (b : bool) (w : world) : world :=
  World (stdin w) b (lines_cell w) (logger w) (repairs_made w).

(** What a caller of [edit_text_interactive text] can tell apart in its
    result: new text, the original text, [None], or an exception. *)
Inductive outcome : Type :=
| Edited | KeptOriginal | Cancelled | Raised (e : exn).

Definition outcome_of (text : string) (r : res (option string)) : outcome :=
  match r with
  | Ret None => Cancelled
  | Ret (Some s) => if String.eqb s text then KeptOriginal else Edited
  | Raise e => Raised e
  end.

(** The terminator of a line as [readlines()] hands it out: its final
    newline character, if it has one. *)
Fixpoint line_terminator (line : string) : string :=
  match line with
  | EmptyString => EmptyString
  | String c EmptyString =>
      if Ascii.eqb c "010"%char then newline else EmptyString
  | String _ rest => line_terminator rest
  end.

(** ** A sample document

    A header of three fields, a short line and a line with an open quote,
    with the issues the detector reports on it. *)

Definition open_quote_line : string := "x," +:+ dquote +:+ "y".

Definition sample_file : list string :=
  ["a,b,c" +:+ newline; "1,2" +:+ newline; open_quote_line +:+ newline].

Definition sample_issues : list issue :=
  [(2, "1,2", "Has 2 fields, expected 3");
   (3, open_quote_line, "Unbalanced quotes")].

(** A world with the pending events [typed], an empty logger, and
    [prompt_toolkit] installed or not. *)
Definition fresh_world (typed : list event) (toolkit : bool) : world :=
  World typed toolkit [] [] 0.

(** ** [core/user_input.py]: the numbered menu and the issue prompt *)

(** [s.split(sep)] for a one-character separator. *)
Fixpoint split_on (sep : ascii) (s : string) : list string :=
  match s with
  | EmptyString => [EmptyString]
  | String c rest =>
      if Ascii.eqb c sep then EmptyString :: split_on sep rest
      else
        match split_on sep rest with
        | piece :: pieces => String c piece :: pieces
        | [] => [String c EmptyString]
        end
  end.

(** The values of the dictionary [show_issue_and_prompt_fix] returns. *)
Inductive pyval : Type :=
| PStr (s : string)
| PInt (n : Z).

(** *** The recursion limit

    [confirm_action] and [choose_from_list] ask again by calling
    themselves, so the interpreter's recursion limit bounds how often they
    can ask.  In the two functions below [depth] is the number of nested
    calls of the function that the interpreter still allows where it is
    called; every call reads one line, and the call that the limit refuses
    raises [RecursionError], which nothing in the function catches.
    [confirm_action_on] and [choose_from_list_on] are these functions for a
    [depth] that is not used up. *)

Fixpoint confirm_action_limited_on (depth : nat) (default : bool)
    (pending : list event) : res bool * list event :=
  match depth with
  | O => (Raise RecursionError, pending)
  | S depth' =>
      match pending with
      | [] => (Raise EOFError, [])
      | CtrlC :: pending' => (Raise KeyboardInterrupt, pending')
      | Line typed :: pending' =>
          match confirm_reading default typed with
          | Some answer => (Ret answer, pending')
          | None => confirm_action_limited_on depth' default pending'
          end
      end
  end.

(** [confirm_action(message, default)] with [depth] calls allowed. *)
Definition confirm_action_limited (depth : nat) (message : string)
    (default : bool) : M bool :=
  fun w =>
    let (answer, pending) :=
      confirm_action_limited_on depth default (stdin w) in
    (answer, set_stdin pending w).

Section Menu.

(** The built-in [int(s)] on a [str]: [None] stands for [ValueError]. *)
Variable int : string -> option Z.

(** [[int(x) for x in pieces]]: the first [ValueError] ends it. *)
Fixpoint ints (pieces : list string) : option (list Z) :=
  match pieces with
  | [] => Some []
  | x :: pieces' =>
      match int x with
      | None => None
      | Some n =>
          match ints pieces' with
          | None => None
          | Some ns => Some (n :: ns)
          end
      end
  end.

(** What [choose_from_list] makes of one typed line: [Some None] is the
    cancel, [Some (Some indices)] the selection, [None] one of the two
    branches that print a complaint and ask again. *)
Definition choose_reading (options : list string) (allow_multiple : bool)
    (typed : string) : option (option (list Z)) :=
  let response := strip typed in
  if String.eqb response "0"
     || member (lower response) ["cancel"; "c"; "q"; "quit"]
  then Some None
  else
    let parsed :=
      if allow_multiple then ints (map strip (split_on comma response))
      else ints [response] in
    match parsed with
    | None => None
    | Some choices =>
        if existsb (fun choice => (choice <? 1) || (len options <? choice))
                   choices
        then None
        else Some (Some (map (fun c => c - 1) choices))
    end.

(** [choose_from_list] on the pending terminal events; as in
    [confirm_action], each recursive call starts with one [input()], and
    the recursion limit is taken not to be reached
    ([choose_from_list_limited_on] has it). *)
Fixpoint choose_from_list_on (options : list string) (allow_multiple : bool)
    (pending : list event) : res (option (list Z)) * list event :=
  match pending with
  | [] => (Raise EOFError, [])
  | CtrlC :: pending' => (Raise KeyboardInterrupt, pending')
  | Line typed :: pending' =>
      match choose_reading options allow_multiple typed with
      | Some result => (Ret result, pending')
      | None => choose_from_list_on options allow_multiple pending'
      end
  end.

(** [choose_from_list(options, message, allow_multiple)] *)
Definition choose_from_list (options : list string) (message : string)
    (allow_multiple : bool) : M (option (list Z)) :=
  fun w =>
    let (result, pending) :=
      choose_from_list_on options allow_multiple (stdin w) in
    (result, set_stdin pending w).

(** [choose_from_list] on the pending events with [depth] calls allowed. *)
Fixpoint choose_from_list_limited_on (depth : nat) (options : list string)
    (allow_multiple : bool) (pending : list event)
    : res (option (list Z)) * list event :=
  match depth with
  | O => (Raise RecursionError, pending)
  | S depth' =>
      match pending with
      | [] => (Raise EOFError, [])
      | CtrlC :: pending' => (Raise KeyboardInterrupt, pending')
      | Line typed :: pending' =>
          match choose_reading options allow_multiple typed with
          | Some result => (Ret result, pending')
          | None =>
              choose_from_list_limited_on depth' options allow_multiple pending'
          end
      end
  end.

(** [choose_from_list(options, message, allow_multiple)] with [depth] calls
    allowed. *)
Definition choose_from_list_limited (depth : nat) (options : list string)
    (message : string) (allow_multiple : bool) : M (option (list Z)) :=
  fun w =>
    let (result, pending) :=
      choose_from_list_limited_on depth options allow_multiple (stdin w) in
    (result, set_stdin pending w).

(** [show_issue_and_prompt_fix(issue_description, problematic_content,
    suggested_fixes, allow_edit)]; the dictionary returned is a map from
    its keys to its values. *)
Definition show_issue_and_prompt_fix
    (issue_description problematic_content : string)
    (suggested_fixes : list string) (allow_edit : bool)
    : M (option (gmap string pyval)) :=
  let options :=
    (map (fun fix_ => "Apply fix: " +:+ fix_) suggested_fixes
     ++ (if allow_edit then ["edit manually"] else [])
     ++ ["skip this issue (leave unchanged)"])%list in
  choices <- choose_from_list options "How would you like to proceed?" false ;;
  match choices with
  | None => ret None
  | Some choices =>
      match choices with
      | [] => raise IndexError
      | choice_index :: _ =>
          let num_fixes := len suggested_fixes in
          if choice_index <? num_fixes then
            ret (Some (<["action" := PStr "apply_fix"]>
                         (<["fix_index" := PInt choice_index]> ∅)))
          else if allow_edit && (choice_index =? num_fixes) then
            edited <- edit_text_interactive problematic_content
                        "Edit the content:" ;;
            match edited with
            | None => ret None
            | Some edited =>
                ret (Some (<["action" := PStr "edit"]>
                             (<["edited_content" := PStr edited]> ∅)))
            end
          else
            ret (Some (<["action" := PStr "skip"]> ∅))
      end
  end.

End Menu.

(** ** [core/base_tool.py], class [BaseTool] *)

(** Is the exception an instance of [Exception]?  Of those modelled, only
    [KeyboardInterrupt] is not. *)
Definition is_Exception (e : exn) : bool := negb (exn_eqb e KeyboardInterrupt).

Module BaseTool.
Section Run.

Context {A : Type}.

(** [self.name], [self.version] *)
Variables name version : string.

(** [str(e)] for an exception caught by [run]; the exceptions of the
    embedding carry no text. *)
Variable describe : exn -> string.

(** The abstract methods, applied to the arguments of [run]. *)
Variable validate_input : M bool.
Variable process : M (option A).

(** [run(self, *args, **kwargs)] *)
Definition run : M (option A) :=
  fun w =>
    match
      (logger_info ("Starting " +:+ name +:+ " v" +:+ version) ;;
       valid <- validate_input ;;
       if negb valid then
         logger_error "Input validation failed" ;;
         ret None
       else
         result <- process ;;
         logger_info (name +:+ " completed successfully") ;;
         ret result) w
    with
    | (Raise e, w') =>
        if is_Exception e then
          (logger_error ("Error during execution: " +:+ describe e) ;;
           ret None) w'
        else (Raise e, w')
    | returned => returned
    end.

End Run.
End BaseTool.

(** [CSVRepairTool().run(filepath)], for a [validate_input] left open and
    the lines of the file at [filepath]. *)
Definition CSVRepairTool_run (describe : exn -> string)
    (validate_input : M bool) (file_lines : list string) : M (option string) :=
  BaseTool.run "CSV Repair Tool" "1.0.0" describe validate_input
    (process file_lines).

(** ** [core/utils.py]: whitespace cleaning *)

(** [s.replace(old, new)] for one-character strings. *)
Fixpoint replace_char (old new : ascii) (s : string) : string :=
  match s with
  | EmptyString => EmptyString
  | String c rest =>
      String (if Ascii.eqb c old then new else c) (replace_char old new rest)
  end.

(** Does a word go on at the head of [s]? *)
Definition word_continues (s : string) : bool :=
  match s with
  | EmptyString => false
  | String c _ => negb (isspace c)
  end.

(** [s.split()]: the maximal runs of characters that are not whitespace. *)
Fixpoint split_whitespace (s : string) : list string :=
  match s with
  | EmptyString => []
  | String c rest =>
      if isspace c then split_whitespace rest
      else if word_continues rest then
        match split_whitespace rest with
        | word :: words => String c word :: words
        | [] => [String c EmptyString]
        end
      else String c EmptyString :: split_whitespace rest
  end.

Definition tab : ascii := "009"%char.
Definition lf : ascii := "010"%char.
Definition cr : ascii := "013"%char.
Definition space : ascii := " "%char.

(** [clean_string(text)] *)
Definition clean_string (text : string) : string :=
  let text := replace_char cr space (replace_char lf space (replace_char tab space text)) in
  let text := String.concat " " (split_whitespace text) in
  strip text.

(** [normalize_whitespace(text)] *)
Definition normalize_whitespace (text : string) : string :=
  let lines := split_on lf text in
  let cleaned_lines :=
    map (fun line => String.concat " " (split_whitespace line)) lines in
  String.concat newline cleaned_lines.

(** A reader of plain decimal numerals, to run the menu on examples; on a
    non-empty string of digits it gives what [int] gives. *)
Definition decimal_int (s : string) : option Z :=
  option_map Z.of_int (NilZero.int_of_string s).

(** The typed line is no answer to a yes/no question: it is not blank
    and, trimmed and in lower case, is none of y, yes, n, no. *)
Definition not_an_answer (typed : string) : Prop :=
  whitespace_only typed = false
  /\ ~ In (lower (strip typed)) ["y"; "yes"; "n"; "no"].

(** What a typed line answers to a yes/no question with the given default:
    a blank line the default, y or yes true, n or no false. *)
Definition answers (default : bool) (typed : string) (answer : bool) : Prop :=
  (whitespace_only typed = true /\ answer = default)
  \/ (In (lower (strip typed)) ["y"; "yes"] /\ answer = true)
  \/ (In (lower (strip typed)) ["n"; "no"] /\ answer = false).

(** The typed line does not cancel a menu: trimmed, it is not 0 and, in
    lower case, none of cancel, c, q, quit. *)
Definition no_cancel (typed : string) : Prop :=
  strip typed <> "0"
  /\ ~ In (lower (strip typed)) ["cancel"; "c"; "q"; "quit"].

(** The typed line is refused by a single-choice menu over [options]: it
    does not cancel, and [int] fails on it or reads a number that is not
    between 1 and the number of options. *)
Definition refused_choice (int : string -> option Z) (options : list string)
    (typed : string) : Prop :=
  no_cancel typed
  /\ (int (strip typed) = None
      \/ exists k, int (strip typed) = Some k /\ (k < 1 \/ len options < k)).

(** The words that cancel an edit in the plain-input fallback. *)
Definition cancel_words : list string := ["cancel"; "c"; "quit"; "q"].

(** A word: a string that is not empty and holds no whitespace. *)
Definition is_word (s : string) : bool :=
  negb (falsy s) && forallb (fun c => negb (isspace c)) (list_ascii_of_string s).

(** The characters of [s] that are not whitespace, in order. *)
Definition visible (s : string) : list ascii :=
  List.filter (fun c => negb (isspace c)) (list_ascii_of_string s).

(** Does [s] hold two whitespace characters in a row? *)
Fixpoint double_space (s : string) : bool :=
  match s with
  | EmptyString => false
  | String a rest =>
      match rest with
      | EmptyString => false
      | String b _ => (isspace a && isspace b) || double_space rest
      end
  end.

(** ** Properties of the string primitives *)

Section StringFacts.

Lemma count_nonneg c s : 0 <= count c s.
Proof. induction s as [|d s IH]; simpl; [lia|]. destruct (Ascii.eqb d c); lia. Qed.

Lemma count_cons_zero c d s :
  count c (String d s) = 0 -> Ascii.eqb d c = false /\ count c s = 0.
Proof.
  simpl. pose proof (count_nonneg c s).
  destruct (Ascii.eqb d c); [lia | split; [reflexivity | lia]].
Qed.

(** [count] agrees with counting occurrences in the list of characters. *)
Lemma count_occurrences c s : count c s = Z.of_nat (occurrences c s).
Proof.
  unfold occurrences. induction s as [|d s IH]; simpl; [reflexivity|].
  destruct (ascii_dec d c) as [->|Hne].
  - rewrite Ascii.eqb_refl, IH. lia.
  - apply Ascii.eqb_neq in Hne. rewrite Hne, IH. lia.
Qed.

Lemma count_only c s :
  count c (string_of_list_ascii
             (List.filter (fun d => Ascii.eqb d c) (list_ascii_of_string s)))
  = count c s.
Proof.
  induction s as [|d s IH]; simpl; [reflexivity|].
  destruct (Ascii.eqb d c) eqn:E; simpl; rewrite ?E, IH; reflexivity.
Qed.

Lemma odd_of_nat (m : nat) : Z.odd (Z.of_nat m) = Nat.odd m.
Proof.
  induction m as [|m IH]; [reflexivity|].
  rewrite Nat2Z.inj_succ, Z.odd_succ, Nat.odd_succ, <- Z.negb_odd, IH.
  apply Nat.negb_odd.
Qed.

End StringFacts.

(** ** The quote balance checker *)

Lemma unbalanced_parity line :
  _has_unbalanced_quotes line = Z.odd (count quote line).
Proof.
  unfold _has_unbalanced_quotes. cbv zeta.
  rewrite Zmod_odd. destruct (Z.odd (count quote line)); reflexivity.
Qed.

Lemma unbalanced_cons c line :
  _has_unbalanced_quotes (String c line)
  = xorb (Ascii.eqb c quote) (_has_unbalanced_quotes line).
Proof.
  rewrite !unbalanced_parity. simpl count.
  destruct (Ascii.eqb c quote); simpl xorb.
  - replace (1 + count quote line) with (Z.succ (count quote line)) by lia.
    rewrite Z.odd_succ, <- Z.negb_odd. reflexivity.
  - reflexivity.
Qed.

Lemma balanced_of_no_quotes line :
  count quote line = 0 -> _has_unbalanced_quotes line = false.
Proof. intros H. rewrite unbalanced_parity, H. reflexivity. Qed.

Lemma unbalanced_odd_occurrences line :
  _has_unbalanced_quotes line = Nat.odd (occurrences quote line).
Proof. rewrite unbalanced_parity, count_occurrences. apply odd_of_nat. Qed.

Lemma unbalanced_of_odd line :
  Nat.Odd (occurrences quote line) -> _has_unbalanced_quotes line = true.
Proof. rewrite unbalanced_odd_occurrences. apply Nat.odd_spec. Qed.

Lemma balanced_of_even line :
  Nat.Even (occurrences quote line) -> _has_unbalanced_quotes line = false.
Proof.
  rewrite unbalanced_odd_occurrences, <- Nat.negb_even.
  intros H. apply Nat.even_spec in H. rewrite H. reflexivity.
Qed.

Lemma no_occurrence_count c s : occurrences c s = 0%nat -> count c s = 0.
Proof. intros H. rewrite count_occurrences, H. reflexivity. Qed.

(** C6: for every line, the empty one included, [_has_unbalanced_quotes]
    answers true exactly when the number of double-quote characters of the
    line is odd; the answer is that of the line with every other character
    (delimiters included) removed. *)
Theorem quote_balance_iff_odd (L : string) :
  (_has_unbalanced_quotes L = true <-> Nat.Odd (occurrences quote L))
  /\ _has_unbalanced_quotes L
     = _has_unbalanced_quotes
         (string_of_list_ascii
            (List.filter (fun c => Ascii.eqb c quote) (list_ascii_of_string L)))
  /\ _has_unbalanced_quotes "" = false.
Proof.
  split; [|split].
  - rewrite unbalanced_odd_occurrences. apply Nat.odd_spec.
  - rewrite !unbalanced_parity, count_only. reflexivity.
  - reflexivity.
Qed.

(** ** The quote-aware field counter *)

(** Scanning [a +:+ b] is scanning [a], then [b] from the state [a] leaves. *)
Lemma count_fields_loop_app a b inside n :
  count_fields_loop inside n (a +:+ b)
  = count_fields_loop (xorb inside (_has_unbalanced_quotes a))
                      (count_fields_loop inside n a) b.
Proof.
  revert inside n. induction a as [|c a IH]; intros inside n.
  - simpl. rewrite xorb_false_r. reflexivity.
  - rewrite unbalanced_cons. simpl.
    destruct (Ascii.eqb c quote) eqn:Eq.
    + rewrite IH. f_equal. destruct inside, (_has_unbalanced_quotes a); reflexivity.
    + destruct (Ascii.eqb c comma && negb inside); rewrite IH; reflexivity.
Qed.

(** Inside a quoted section nothing but a quote changes the state. *)
Lemma count_fields_loop_inside s n :
  count quote s = 0 -> count_fields_loop true n s = n.
Proof.
  revert n. induction s as [|c s IH]; intros n H; [reflexivity|].
  apply count_cons_zero in H as [Hc Hs]. simpl. rewrite Hc.
  rewrite andb_false_r. apply IH, Hs.
Qed.

Lemma count_fields_loop_outside s n :
  count quote s = 0 -> count_fields_loop false n s = n + count comma s.
Proof.
  revert n. induction s as [|c s IH]; intros n H; [simpl; lia|].
  apply count_cons_zero in H as [Hc Hs]. simpl. rewrite Hc.
  rewrite andb_true_r. destruct (Ascii.eqb c comma); rewrite IH by exact Hs; lia.
Qed.

(** C7: a comma strictly inside a properly quoted section (after an opening
    quote that follows a balanced prefix [pre], with no quote in [inner1]
    between that opening quote and the comma) is not counted: the line has
    as many fields as the same line with that comma deleted. *)
Theorem quoted_comma_not_counted (pre inner1 inner2 post : string) :
  Nat.Even (occurrences quote pre) ->
  occurrences quote inner1 = 0%nat ->
  _count_fields_respecting_quotes
    (pre +:+ dquote +:+ inner1 +:+ "," +:+ inner2 +:+ dquote +:+ post)
  = _count_fields_respecting_quotes
      (pre +:+ dquote +:+ inner1 +:+ inner2 +:+ dquote +:+ post).
Proof.
  intros Hpre H1. apply balanced_of_even in Hpre. apply no_occurrence_count in H1.
  unfold _count_fields_respecting_quotes.
  rewrite !(count_fields_loop_app pre), Hpre. simpl xorb.
  change (dquote +:+ ?x) with (String quote x).
  simpl.
  rewrite !(count_fields_loop_app inner1).
  rewrite (balanced_of_no_quotes inner1 H1). reflexivity.
Qed.

Lemma quoted_comma_not_counted_witness :
  _count_fields_respecting_quotes
    ("id," +:+ dquote +:+ "Doe" +:+ "," +:+ " John" +:+ dquote +:+ ",42")
  = _count_fields_respecting_quotes
      ("id," +:+ dquote +:+ "Doe" +:+ " John" +:+ dquote +:+ ",42").
Proof.
  apply (quoted_comma_not_counted "id," "Doe" " John" ",42");
    [exists 0%nat; reflexivity | reflexivity].
Defined.

(** C8: a line without quote characters has one field more than it has
    commas; the empty line has exactly one field. *)
Theorem unquoted_field_count (L : string) :
  occurrences quote L = 0%nat ->
  _count_fields_respecting_quotes L = 1 + Z.of_nat (occurrences comma L)
  /\ _count_fields_respecting_quotes "" = 1.
Proof.
  intros H. apply no_occurrence_count in H. split; [|reflexivity].
  rewrite <- count_occurrences.
  unfold _count_fields_respecting_quotes. apply count_fields_loop_outside, H.
Qed.

Lemma unquoted_field_count_witness :
  _count_fields_respecting_quotes "1001,john,Laptop,$1,299.99"
  = 1 + Z.of_nat (occurrences comma "1001,john,Laptop,$1,299.99")
  /\ _count_fields_respecting_quotes "" = 1.
Proof. apply (unquoted_field_count "1001,john,Laptop,$1,299.99"). reflexivity. Defined.

(** ** Blank lines *)

Lemma falsy_rstrip_cons c s : isspace c = false -> falsy (rstrip (String c s)) = false.
Proof. intros Hc. simpl. destruct (rstrip s); [rewrite Hc|]; reflexivity. Qed.

Lemma lstrip_blank s :
  whitespace_only s = true -> lstrip s = "".
Proof.
  unfold whitespace_only. induction s as [|c s IH]; [reflexivity|]. simpl.
  destruct (isspace c); [exact IH | discriminate].
Qed.

Lemma lstrip_not_blank s :
  whitespace_only s = false ->
  exists c rest, lstrip s = String c rest /\ isspace c = false.
Proof.
  unfold whitespace_only. induction s as [|c s IH]; [discriminate|]. simpl.
  destruct (isspace c) eqn:Hc; [exact IH|]. intros _. exists c, s. split; reflexivity || exact Hc.
Qed.

(** The blank test of the detector, [not line.strip()], holds exactly of
    the lines made of whitespace. *)
Lemma blank_test s : falsy (strip s) = whitespace_only s.
Proof.
  unfold strip. destruct (whitespace_only s) eqn:E.
  - rewrite (lstrip_blank s E). reflexivity.
  - destruct (lstrip_not_blank s E) as (c & rest & -> & Hc).
    apply falsy_rstrip_cons, Hc.
Qed.

(** A blank line holds no character that is not whitespace. *)
Lemma blank_count c s :
  isspace c = false -> whitespace_only s = true -> count c s = 0.
Proof.
  intros Hc. unfold whitespace_only.
  induction s as [|d s IH]; [reflexivity|]. simpl.
  destruct (isspace d) eqn:Hd; [|discriminate]. intros Hs. rewrite (IH Hs).
  destruct (Ascii.eqb d c) eqn:E; [|reflexivity].
  apply Ascii.eqb_eq in E. congruence.
Qed.

Lemma blank_field_count s :
  whitespace_only s = true -> _count_fields_respecting_quotes s = 1.
Proof.
  intros Hb. unfold _count_fields_respecting_quotes.
  rewrite count_fields_loop_outside by (apply blank_count; [reflexivity | exact Hb]).
  rewrite (blank_count comma s); [reflexivity | reflexivity | exact Hb].
Qed.

(** ** The mismatch detector *)


Lemma detect_loop_cons e i line data :
  detect_loop e i (line :: data)
  = line_issues e i line ++ detect_loop e (i + 1) data.
Proof.
  unfold line_issues. simpl.
  destruct (falsy (strip line)); [reflexivity|].
  destruct (_has_unbalanced_quotes line); [reflexivity|].
  destruct (negb (_count_fields_respecting_quotes line =? e)); reflexivity.
Qed.

Lemma line_issues_number e i line iss :
  In iss (line_issues e i line) -> issue_line iss = i.
Proof.
  unfold line_issues. simpl.
  destruct (falsy (strip line)); [intros []|].
  destruct (_has_unbalanced_quotes line); [intros [<-|[]]; reflexivity|].
  destruct (negb (_count_fields_respecting_quotes line =? e));
    [intros [<-|[]]; reflexivity | intros []].
Qed.

(** Issues carry the numbers of the lines scanned. *)
Lemma detect_loop_numbers e data : forall i iss,
  In iss (detect_loop e i data) -> i <= issue_line iss < i + len data.
Proof.
  unfold len. induction data as [|line data IH]; intros i iss; [intros []|].
  rewrite detect_loop_cons, in_app_iff. intros [H|H].
  - apply line_issues_number in H. simpl length. lia.
  - apply IH in H. simpl length. lia.
Qed.


Lemma filter_none {A} (f : A -> bool) l :
  (forall x, In x l -> f x = false) -> List.filter f l = [].
Proof.
  induction l as [|x l IH]; intros H; [reflexivity|]. simpl.
  rewrite (H x) by (left; reflexivity). apply IH. intros y Hy. apply H. right. exact Hy.
Qed.

Lemma filter_all {A} (f : A -> bool) l :
  (forall x, In x l -> f x = true) -> List.filter f l = l.
Proof.
  induction l as [|x l IH]; intros H; [reflexivity|]. simpl.
  rewrite (H x) by (left; reflexivity). f_equal. apply IH. intros y Hy. apply H. right. exact Hy.
Qed.

(** The issues reported at the number of a data line are those of that
    line alone. *)
Lemma detect_loop_at e data : forall i (k : nat) line,
  data !! k = Some line ->
  List.filter (at_line (i + Z.of_nat k)) (detect_loop e i data)
  = line_issues e (i + Z.of_nat k) line.
Proof.
  induction data as [|l data IH]; intros i k line Hk; [discriminate|].
  rewrite detect_loop_cons, List.filter_app. destruct k as [|k].
  - injection Hk as ->. replace (i + Z.of_nat 0) with i by lia.
    rewrite (filter_all _ (line_issues e i line)).
    + rewrite filter_none; [apply app_nil_r|].
      intros x Hx. apply detect_loop_numbers in Hx. apply Z.eqb_neq. lia.
    + intros x Hx. apply line_issues_number in Hx. apply Z.eqb_eq. exact Hx.
  - rewrite (filter_none _ (line_issues e i l)).
    + replace (i + Z.of_nat (S k)) with (i + 1 + Z.of_nat k) by lia.
      apply IH. exact Hk.
    + intros x Hx. apply line_issues_number in Hx. apply Z.eqb_neq. lia.
Qed.

(** [_detect_field_mismatches] returns, whatever the world; it only adds the
    header record to the logger. *)
Lemma detect_returns header data w :
  data <> [] ->
  _detect_field_mismatches (header :: data) w
  = (Ret (detect_loop (_count_fields_respecting_quotes header) 2 data),
     add_record
       (INFO, "Header has " +:+ str (_count_fields_respecting_quotes header)
                +:+ " fields") w).
Proof.
  intros Hd. unfold _detect_field_mismatches.
  destruct data as [|l data]; [contradiction|].
  replace (len (header :: l :: data) <? 2) with false
    by (symmetry; apply Z.ltb_ge; unfold len; simpl length; lia).
  reflexivity.
Qed.

(** C5: a data line that is not blank and holds an odd number of quote
    characters gets exactly one issue, the "Unbalanced quotes" one, and so
    no field-count issue. *)
Theorem unbalanced_line_single_issue
    (lines : list string) (w : world) (k : nat) (line : string) :
  (1 <= k)%nat ->
  lines !! k = Some line ->
  whitespace_only line = false ->
  Nat.Odd (occurrences quote line) ->
  exists issues w',
    _detect_field_mismatches lines w = (Ret issues, w')
    /\ List.filter (at_line (Z.of_nat k + 1)) issues
       = [(Z.of_nat k + 1, strip line, "Unbalanced quotes")].
Proof.
  intros Hk Hline Hblank Hodd.
  rewrite <- blank_test in Hblank. apply unbalanced_of_odd in Hodd.
  destruct lines as [|header data]; [discriminate|].
  destruct k as [|k]; [lia|]. simpl in Hline.
  assert (Hd : data <> []) by (intros ->; discriminate).
  eexists _, _. split; [apply detect_returns, Hd|].
  replace (Z.of_nat (S k) + 1) with (2 + Z.of_nat k) by lia.
  rewrite (detect_loop_at _ _ _ _ _ Hline).
  unfold line_issues. simpl. rewrite Hblank, Hodd. reflexivity.
Qed.

Lemma unbalanced_line_single_issue_witness :
  exists issues w',
    _detect_field_mismatches sample_file (fresh_world [] false) = (Ret issues, w')
    /\ List.filter (at_line (Z.of_nat 2 + 1)) issues
       = [(Z.of_nat 2 + 1, strip (open_quote_line +:+ newline),
           "Unbalanced quotes")].
Proof.
  apply (unbalanced_line_single_issue sample_file (fresh_world [] false) 2
           (open_quote_line +:+ newline));
    [lia | reflexivity | reflexivity | exists 0%nat; reflexivity].
Defined.

(** C10: a blank header is not exempt.  It is counted like any line, which
    gives one expected field, and every data line that is not blank, has
    balanced quotes and a field count other than 1 is reported against
    that expectation. *)
Theorem blank_header_expects_one_field
    (header : string) (data : list string) (w : world) :
  whitespace_only header = true ->
  _count_fields_respecting_quotes header = 1
  /\ exists issues w',
       _detect_field_mismatches (header :: data) w = (Ret issues, w')
       /\ (data <> [] -> logger w' = logger w ++ [(INFO, "Header has 1 fields")])
       /\ forall (k : nat) (line : string),
            data !! k = Some line ->
            whitespace_only line = false ->
            Nat.Even (occurrences quote line) ->
            _count_fields_respecting_quotes line <> 1 ->
            List.filter (at_line (Z.of_nat k + 2)) issues
            = [(Z.of_nat k + 2, strip line,
                "Has " +:+ str (_count_fields_respecting_quotes line)
                  +:+ " fields, expected 1")].
Proof.
  intros Hb. pose proof (blank_field_count header Hb) as He.
  split; [exact He|].
  destruct data as [|l data].
  - exists [], w. split; [reflexivity|]. split; [congruence|]. intros k line Hk. discriminate.
  - eexists _, _. split; [apply detect_returns; discriminate|].
    rewrite He. split; [reflexivity|].
    intros k line Hk Hnb Hbal Hfc.
    rewrite <- blank_test in Hnb. apply balanced_of_even in Hbal.
    replace (Z.of_nat k + 2) with (2 + Z.of_nat k) by lia.
    rewrite (detect_loop_at _ _ _ _ _ Hk). unfold line_issues. simpl.
    rewrite Hnb, Hbal.
    destruct (_count_fields_respecting_quotes line =? 1) eqn:E;
      [apply Z.eqb_eq in E; contradiction | reflexivity].
Qed.

(** ** The prompts touch nothing but the terminal *)

Ltac case_if :=
  match goal with |- context [if ?b then _ else _] => destruct b end.


Lemma same_tool_refl w : same_tool w w.
Proof. repeat split. Qed.

Lemma confirm_action_same_tool message default w r w' :
  confirm_action message default w = (r, w') -> same_tool w w'.
Proof.
  unfold confirm_action. destruct (confirm_action_on default (stdin w)).
  intros [= _ <-]. repeat split.
Qed.

Lemma read_event_same_tool w r w' : read_event w = (r, w') -> same_tool w w'.
Proof.
  unfold read_event. destruct (stdin w) as [|[s|] pending];
    intros [= _ <-]; repeat split.
Qed.

Lemma edit_text_same_tool text message w r w' :
  edit_text_interactive text message w = (r, w') -> same_tool w w'.
Proof.
  unfold edit_text_interactive, try_except, bind, import_prompt_toolkit.
  destruct (has_prompt_toolkit w) eqn:Hk.
  - unfold edit_with_prompt_toolkit, try_except, bind, prompt, read_event.
    destruct (stdin w) as [|[edited|] pending]; unfold ret; simpl;
      intros [= _ <-]; repeat split; assumption.
  - simpl. unfold edit_with_input, bind, input.
    destruct (read_event w) as [[typed|e] w1] eqn:E;
      apply read_event_same_tool in E.
    + destruct (falsy (strip typed)); [|destruct (member _ _)];
        unfold ret; intros [= _ <-]; exact E.
    + intros [= _ <-]. exact E.
Qed.

Lemma edit_line_same_tool line n w r w' :
  edit_line_interactive line n w = (r, w') -> same_tool w w'.
Proof. apply edit_text_same_tool. Qed.

(** Binding [lines] first does not change what a prompt reads. *)
Lemma confirm_action_set_lines message default ls w :
  confirm_action message default (set_lines ls w)
  = let (r, w') := confirm_action message default w in (r, set_lines ls w').
Proof.
  unfold confirm_action. simpl.
  destruct (confirm_action_on default (stdin w)). reflexivity.
Qed.

Lemma edit_line_set_lines line n ls w :
  edit_line_interactive line n (set_lines ls w)
  = let (r, w') := edit_line_interactive line n w in (r, set_lines ls w').
Proof.
  unfold edit_line_interactive, edit_text_interactive, try_except, bind,
    import_prompt_toolkit. simpl.
  destruct (has_prompt_toolkit w).
  - unfold edit_with_prompt_toolkit, try_except, bind, prompt, read_event. simpl.
    destruct (stdin w) as [|[s|] pending]; reflexivity.
  - simpl. unfold edit_with_input, bind, input, read_event. simpl.
    destruct (stdin w) as [|[s|] pending]; [reflexivity| |reflexivity].
    unfold ret. repeat case_if; reflexivity.
Qed.

(** ** List assignment *)

Lemma setitem_Some l i v l' :
  0 <= i -> setitem l i v = Some l' ->
  i < len l /\ l' = <[Z.to_nat i := v]> l.
Proof.
  intros Hi. unfold setitem.
  replace (i <? 0) with false by (symmetry; apply Z.ltb_ge; lia).
  destruct (0 <=? i) eqn:E0; [|discriminate].
  destruct (i <? len l) eqn:E1; [|discriminate].
  simpl. intros [= <-]. apply Z.ltb_lt in E1. split; [exact E1 | reflexivity].
Qed.

Lemma setitem_in_range l i v :
  0 <= i < len l -> setitem l i v = Some (<[Z.to_nat i := v]> l).
Proof.
  intros [H0 H1]. unfold setitem.
  replace (i <? 0) with false by (symmetry; apply Z.ltb_ge; lia).
  replace (0 <=? i) with true by (symmetry; apply Z.leb_le; lia).
  replace (i <? len l) with true by (symmetry; apply Z.ltb_lt; lia).
  reflexivity.
Qed.

(** ** The repair session *)




Lemma confirm_action_no message w pending :
  stdin w = Line "n" :: pending ->
  confirm_action message true w = (Ret false, set_stdin pending w).
Proof. intros H. unfold confirm_action. rewrite H. reflexivity. Qed.

(** Answering "n" to every question walks the whole loop and returns the
    list as it was. *)
Lemma repair_loop_skip_all issues : forall w rest,
  stdin w = (skip_answers issues ++ rest)%list ->
  exists w',
    repair_loop issues w = (Ret (Some (lines_cell w)), w')
    /\ stdin w' = rest
    /\ lines_cell w' = lines_cell w
    /\ repairs_made w' = repairs_made w.
Proof.
  induction issues as [|[[line_num line_content] issue_desc] issues IH];
    intros w rest Hin.
  - exists w. repeat split. exact Hin.
  - simpl in Hin. simpl repair_loop. unfold bind at 1.
    rewrite (confirm_action_no _ w _ Hin). simpl negb. cbv iota.
    unfold bind at 1, logger_info.
    destruct (IH (add_record (INFO, "Skipping line " +:+ str line_num)
                    (set_stdin (skip_answers issues ++ rest) w)) rest)
      as (w' & Hrun & Hs & Hl & Hr); [reflexivity|].
    exists w'. split; [exact Hrun|]. split; [exact Hs|]. split; [exact Hl | exact Hr].
Qed.


(** C2: when the user confirms the fix of the first issue, cancels the edit
    and confirms "Cancel entire repair process?", the session returns
    [None], and the list object holds the input lines, none changed. *)
Theorem abort_on_first_issue
    (lines : list string) (line_num : Z) (line_content issue_desc : string)
    (issues : list issue) (w w1 w2 w3 : world) :
  confirm_action ("Do you want to fix line " +:+ str line_num +:+ "?") true w
    = (Ret true, w1) ->
  edit_line_interactive line_content line_num w1 = (Ret None, w2) ->
  confirm_action "Cancel entire repair process?" false w2 = (Ret true, w3) ->
  exists w',
    _interactive_repair lines ((line_num, line_content, issue_desc) :: issues) w
      = (Ret None, w')
    /\ lines_cell w' = lines
    /\ logger w' = logger w
    /\ stdin w' = stdin w3.
Proof.
  intros H1 H2 H3. exists (set_lines lines w3).
  split; [|split; [reflexivity|split; [|reflexivity]]].
  - unfold _interactive_repair, bind at 1, bind_lines. simpl repair_loop.
    unfold bind at 1. rewrite confirm_action_set_lines, H1. cbv beta iota delta [negb].
    unfold bind at 1. rewrite edit_line_set_lines, H2. cbv beta iota.
    unfold bind at 1. rewrite confirm_action_set_lines, H3. reflexivity.
  - apply confirm_action_same_tool in H1 as (_ & _ & G1 & _).
    apply edit_line_same_tool in H2 as (_ & _ & G2 & _).
    apply confirm_action_same_tool in H3 as (_ & _ & G3 & _).
    simpl. congruence.
Qed.

Lemma abort_on_first_issue_witness :
  exists w',
    _interactive_repair
      ["a,b" +:+ newline; "1,2,3" +:+ newline]
      [(2, "1,2,3", "Has 3 fields, expected 2")]
      (fresh_world [Line "y"; Line "cancel"; Line "yes"] false)
    = (Ret None, w')
    /\ lines_cell w' = ["a,b" +:+ newline; "1,2,3" +:+ newline]
    /\ logger w' = []
    /\ stdin w' = [].
Proof.
  apply (abort_on_first_issue
           ["a,b" +:+ newline; "1,2,3" +:+ newline] 2 "1,2,3"
           "Has 3 fields, expected 2" []
           (fresh_world [Line "y"; Line "cancel"; Line "yes"] false)
           (fresh_world [Line "cancel"; Line "yes"] false)
           (fresh_world [Line "yes"] false)
           (fresh_world [] false)); reflexivity.
Defined.

(** C3, as the code has it: when the user confirms the fix of an issue and
    the editor returns content, the session stores that content followed by
    one newline character at the issue's line, leaves every other line as
    it was, logs the repair and goes on with the next issue. *)
Theorem fix_stores_content_and_newline
    (lines : list string) (line_num : Z) (line_content issue_desc : string)
    (issues : list issue) (w w1 w2 : world) (fixed : string) :
  1 <= line_num <= len lines ->
  confirm_action ("Do you want to fix line " +:+ str line_num +:+ "?") true w
    = (Ret true, w1) ->
  edit_line_interactive line_content line_num w1 = (Ret (Some fixed), w2) ->
  let stored := <[Z.to_nat (line_num - 1) := fixed +:+ newline]> lines in
  _interactive_repair lines ((line_num, line_content, issue_desc) :: issues) w
    = repair_loop issues
        (add_record (repaired_record line_num) (set_lines stored w2))
  /\ stored !! Z.to_nat (line_num - 1) = Some (fixed +:+ newline)
  /\ length stored = length lines
  /\ forall k : nat, k <> Z.to_nat (line_num - 1) -> stored !! k = lines !! k.
Proof.
  intros Hrange H1 H2 stored. split; [|split; [|split]].
  - unfold _interactive_repair, bind at 1, bind_lines. simpl repair_loop.
    unfold bind at 1. rewrite confirm_action_set_lines, H1. cbv beta iota delta [negb].
    unfold bind at 1. rewrite edit_line_set_lines, H2. cbv beta iota.
    unfold bind at 1, lines_setitem. simpl lines_cell.
    rewrite setitem_in_range by lia.
    unfold bind at 1, logger_info. reflexivity.
  - apply list_lookup_insert_eq. unfold len in Hrange. lia.
  - apply length_insert.
  - intros k Hk. apply list_lookup_insert_ne. congruence.
Qed.

(** ** [process] *)

(** Detection yields the same issues in every world and leaves the
    terminal alone. *)
Lemma detect_any_world lines w issues wd :
  _detect_field_mismatches lines w = (Ret issues, wd) ->
  forall w2, exists wd2,
    _detect_field_mismatches lines w2 = (Ret issues, wd2)
    /\ stdin wd2 = stdin w2.
Proof.
  destruct lines as [|header [|l data]].
  - intros [= <- _] w2. exists w2. split; reflexivity.
  - intros [= <- _] w2. exists w2. split; reflexivity.
  - rewrite detect_returns by discriminate. intros [= <- _] w2.
    eexists. rewrite detect_returns by discriminate. split; reflexivity.
Qed.

(** Every issue the detector reports carries the number of a data line. *)
Lemma detected_issue_lines lines w issues wd :
  _detect_field_mismatches lines w = (Ret issues, wd) ->
  Forall (fun iss => 2 <= issue_line iss <= len lines) issues.
Proof.
  destruct lines as [|header [|l data]].
  - intros [= <- _]. constructor.
  - intros [= <- _]. constructor.
  - rewrite detect_returns by discriminate. intros H.
    assert (issues
            = detect_loop (_count_fields_respecting_quotes header) 2 (l :: data))
      as -> by congruence.
    apply List.Forall_forall. intros iss Hin.
    apply detect_loop_numbers in Hin. unfold len in Hin |- *.
    cbn [length] in Hin |- *. lia.
Qed.

Lemma detect_nonempty_input lines w issues wd :
  _detect_field_mismatches lines w = (Ret issues, wd) ->
  issues <> [] -> falsy_list lines = false.
Proof.
  destruct lines as [|header data]; [|reflexivity].
  intros [= <- _] Hne. contradiction.
Qed.

(** With issues detected, [process] is the session started after the
    opening log records, followed by the bookkeeping. *)
Lemma process_with_issues file_lines w wd issues :
  _detect_field_mismatches file_lines w = (Ret issues, wd) ->
  issues <> [] ->
  exists w0,
    stdin w0 = stdin w
    /\ process file_lines w
       = (repaired <- _interactive_repair file_lines issues ;;
          match repaired with
          | None => logger_error "User cancelled repair process" ;; ret None
          | Some lines =>
              self_set_repairs_made (len issues) ;; process_join lines
          end) w0.
Proof.
  intros Hdet Hne.
  pose proof (detect_nonempty_input _ _ _ _ Hdet Hne) as Hfl.
  unfold process, bind at 1, logger_info. cbv zeta. rewrite Hfl.
  unfold bind at 1, logger_info. unfold bind at 1.
  match goal with |- context [_detect_field_mismatches _ ?w0] =>
    destruct (detect_any_world _ _ _ _ Hdet w0) as (wd2 & -> & Hs2) end.
  destruct issues as [|iss issues]; [contradiction|].
  cbv beta iota delta [negb falsy_list].
  unfold bind at 1, logger_info. eexists. split; [|reflexivity]. exact Hs2.
Qed.

(** C9: in a run of [process] that detects at least one issue and returns
    content, [repairs_made] ends as the number of detected issues; it does
    so too when the user answers "n" at every issue, where the content
    returned is the file's, unchanged. *)
Theorem repairs_made_counts_issues
    (file_lines : list string) (w wd : world) (issues : list issue) :
  _detect_field_mismatches file_lines w = (Ret issues, wd) ->
  issues <> [] ->
  (forall content w',
     process file_lines w = (Ret (Some content), w') ->
     repairs_made w' = len issues)
  /\ (forall rest,
        stdin w = (skip_answers issues ++ rest)%list ->
        exists w',
          process file_lines w = (Ret (Some (join file_lines)), w')
          /\ repairs_made w' = len issues
          /\ lines_cell w' = file_lines).
Proof.
  intros Hdet Hne.
  destruct (process_with_issues _ _ _ _ Hdet Hne) as (w0 & Hs0 & ->).
  split.
  - intros content w'. unfold bind at 1.
    destruct (_interactive_repair file_lines issues w0) as [[[ls|]|e] w1].
    + unfold bind at 1, self_set_repairs_made, process_join, bind, logger_info, ret.
      intros [= _ <-]. reflexivity.
    + unfold bind, logger_error, ret. discriminate.
    + discriminate.
  - intros rest Hin. unfold _interactive_repair, bind at 1, bind at 1, bind_lines.
    destruct (repair_loop_skip_all issues (set_lines file_lines w0) rest)
      as (w1 & -> & _ & Hl & _).
    + simpl stdin. rewrite Hs0. exact Hin.
    + simpl in Hl. unfold bind at 1, self_set_repairs_made, process_join, bind,
        logger_info, ret. simpl lines_cell.
      eexists. split; [reflexivity|]. split; [reflexivity | exact Hl].
Qed.

Lemma repairs_made_counts_issues_witness :
  exists w',
    process sample_file (fresh_world [Line "n"; Line "n"] false)
    = (Ret (Some (join sample_file)), w')
    /\ repairs_made w' = len sample_issues
    /\ lines_cell w' = sample_file.
Proof.
  refine (proj2 (repairs_made_counts_issues sample_file
                   (fresh_world [Line "n"; Line "n"] false)
                   (add_record (INFO, "Header has 3 fields")
                      (fresh_world [Line "n"; Line "n"] false))
                   sample_issues _ _) [] _);
    [reflexivity | discriminate | reflexivity].
Defined.

(** ** The two backends of [edit_text_interactive] *)

(** C1, where it fails: with the same prefill and the same line handed
    back by the terminal, the backends give outcomes of different kinds.
    On an empty line the rich one cancels and the fallback keeps the
    original; on a cancel word the rich one returns the word as edited text
    and the fallback cancels. *)
Lemma backends_told_apart :
  let run (toolkit : bool) (typed : string) :=
    outcome_of "1,2,3"
      (fst (edit_text_interactive "1,2,3" "Edit the content:"
              (fresh_world [Line typed] toolkit))) in
  (run true "" = Cancelled /\ run false "" = KeptOriginal)
  /\ (run true "cancel" = Edited /\ run false "cancel" = Cancelled)
  /\ run true "" <> run false ""
  /\ run true "cancel" <> run false "cancel".
Proof. repeat split; discriminate. Qed.

(** Ctrl+C is caught by the rich backend only. *)
Lemma interrupt_caught_by_rich_backend_only (text message : string) :
  fst (edit_text_interactive text message (fresh_world [CtrlC] true)) = Ret None
  /\ fst (edit_text_interactive text message (fresh_world [CtrlC] false))
     = Raise KeyboardInterrupt.
Proof. split; reflexivity. Qed.

Lemma member_In s options : member s options = true <-> In s options.
Proof.
  unfold member. rewrite existsb_exists. split.
  - intros (x & Hin & Heq). apply String.eqb_eq in Heq. subst x. exact Hin.
  - intros Hin. exists s. split; [exact Hin | apply String.eqb_refl].
Qed.

Lemma member_not_In s options : ~ In s options -> member s options = false.
Proof.
  intros H. destruct (member s options) eqn:E; [|reflexivity].
  apply member_In in E. contradiction.
Qed.

Lemma falsy_false s : s <> "" -> falsy s = false.
Proof. destruct s; [contradiction | reflexivity]. Qed.

(** What the rich backend makes of a submitted line. *)
Lemma rich_backend_on_line text message typed pending w :
  stdin w = Line typed :: pending ->
  edit_text_interactive text message (with_prompt_toolkit true w)
  = (Ret (if falsy typed then None else Some typed),
     set_stdin pending (with_prompt_toolkit true w)).
Proof.
  intros Hin.
  unfold edit_text_interactive, try_except, bind, import_prompt_toolkit,
    edit_with_prompt_toolkit, try_except, bind, prompt, read_event,
    with_prompt_toolkit.
  cbn [stdin has_prompt_toolkit]. rewrite Hin. unfold ret.
  destruct (falsy typed); reflexivity.
Qed.

(** What the fallback makes of a submitted line. *)
Lemma fallback_on_line text message typed pending w :
  stdin w = Line typed :: pending ->
  edit_text_interactive text message (with_prompt_toolkit false w)
  = (Ret (if falsy (strip typed) then Some text
          else if member (lower (strip typed)) cancel_words then None
               else Some (strip typed)),
     set_stdin pending (with_prompt_toolkit false w)).
Proof.
  intros Hin.
  unfold edit_text_interactive, try_except, bind, import_prompt_toolkit,
    edit_with_input, bind, input, read_event, with_prompt_toolkit.
  cbn [stdin has_prompt_toolkit exn_eqb]. rewrite Hin. cbv zeta. unfold ret.
  change ["cancel"; "c"; "quit"; "q"] with cancel_words.
  destruct (falsy (strip typed)); [reflexivity|].
  destruct (member (lower (strip typed)) cancel_words); reflexivity.
Qed.

Lemma not_blank_not_empty typed : whitespace_only typed = false -> typed <> "".
Proof. intros H ->. discriminate. Qed.

Lemma cancel_word_not_blank typed :
  In (lower (strip typed)) cancel_words -> whitespace_only typed = false.
Proof.
  intros H. rewrite <- blank_test. destruct (strip typed); [|reflexivity].
  simpl in H. destruct H as [H|[H|[H|[H|[]]]]]; discriminate.
Qed.

(** C1, as the code has it, for every prefill text and every submitted
    line.  (a) On a line that is not empty, carries no leading or trailing
    whitespace and is none of the cancel words in any letter case, both
    backends return that line as the text.  (b) On an empty line the rich
    backend returns [None], the fallback the original text.  (c) On a line
    that, trimmed, is a cancel word the rich backend returns the line as
    text, the fallback [None].  (d) On a whitespace-only line that is not
    empty the rich backend returns the line, the fallback the original
    text.  (e) On any other line the rich backend returns the line as
    submitted, the fallback the line trimmed.  Both leave the same events
    pending. *)
Theorem backends_on_a_submitted_line
    (text message typed : string) (pending : list event) (w : world) :
  stdin w = Line typed :: pending ->
  let rich := edit_text_interactive text message (with_prompt_toolkit true w) in
  let fallback :=
    edit_text_interactive text message (with_prompt_toolkit false w) in
  let after := fun toolkit => set_stdin pending (with_prompt_toolkit toolkit w) in
  (typed <> "" -> strip typed = typed -> ~ In (lower typed) cancel_words ->
   rich = (Ret (Some typed), after true)
   /\ fallback = (Ret (Some typed), after false))
  /\ (typed = "" ->
      rich = (Ret None, after true)
      /\ fallback = (Ret (Some text), after false))
  /\ (In (lower (strip typed)) cancel_words ->
      rich = (Ret (Some typed), after true)
      /\ fallback = (Ret None, after false))
  /\ (whitespace_only typed = true -> typed <> "" ->
      rich = (Ret (Some typed), after true)
      /\ fallback = (Ret (Some text), after false))
  /\ (whitespace_only typed = false -> ~ In (lower (strip typed)) cancel_words ->
      rich = (Ret (Some typed), after true)
      /\ fallback = (Ret (Some (strip typed)), after false)).
Proof.
  intros Hin rich fallback after. subst rich fallback after. cbv beta.
  rewrite (rich_backend_on_line text message typed pending w Hin),
    (fallback_on_line text message typed pending w Hin), blank_test.
  split; [|split; [|split; [|split]]].
  - intros Hne Hstrip Hword.
    assert (whitespace_only typed = false) as ->.
    { rewrite <- blank_test, Hstrip. apply falsy_false, Hne. }
    rewrite Hstrip, (falsy_false typed Hne), (member_not_In _ _ Hword).
    split; reflexivity.
  - intros ->. split; reflexivity.
  - intros Hword. rewrite (cancel_word_not_blank typed Hword).
    rewrite (falsy_false typed)
      by (apply not_blank_not_empty, cancel_word_not_blank, Hword).
    rewrite (proj2 (member_In _ _) Hword). split; reflexivity.
  - intros Hblank Hne. rewrite Hblank, (falsy_false typed Hne). split; reflexivity.
  - intros Hnb Hword.
    rewrite Hnb, (falsy_false typed (not_blank_not_empty typed Hnb)),
      (member_not_In _ _ Hword).
    split; reflexivity.
Qed.

Lemma backends_on_a_submitted_line_witness :
  edit_text_interactive "1,2,3,4" "Edit CSV line 2:"
    (with_prompt_toolkit true (fresh_world [Line " 1,2,3 "] false))
  = (Ret (Some " 1,2,3 "),
     set_stdin [] (with_prompt_toolkit true (fresh_world [Line " 1,2,3 "] false)))
  /\ edit_text_interactive "1,2,3,4" "Edit CSV line 2:"
       (with_prompt_toolkit false (fresh_world [Line " 1,2,3 "] false))
     = (Ret (Some (strip " 1,2,3 ")),
        set_stdin []
          (with_prompt_toolkit false (fresh_world [Line " 1,2,3 "] false))).
Proof.
  refine (proj2 (proj2 (proj2 (proj2
            (backends_on_a_submitted_line "1,2,3,4" "Edit CSV line 2:" " 1,2,3 "
               [] (fresh_world [Line " 1,2,3 "] false) _)))) _ _).
  - reflexivity.
  - reflexivity.
  - unfold cancel_words. simpl. intros [H|[H|[H|[H|[]]]]]; discriminate.
Defined.

(** ** Closed instances *)

(** C3, where it fails: the last line of a file that does not end in a
    newline has no terminator, and once fixed it is stored with one. *)
Lemma fixed_last_line_gains_newline :
  let lines := ["a,b" +:+ newline; "1,2,3"] in
  let issues := [(2, "1,2,3", "Has 3 fields, expected 2")] in
  let w := fresh_world [Line "y"; Line "1,2"] false in
  fst (_detect_field_mismatches lines w) = Ret issues
  /\ fst (_interactive_repair lines issues w)
     = Ret (Some ["a,b" +:+ newline; "1,2" +:+ newline])
  /\ line_terminator "1,2,3" = ""
  /\ "1,2" +:+ newline <> "1,2" +:+ line_terminator "1,2,3".
Proof. repeat split. discriminate. Qed.

Lemma fix_stores_content_and_newline_witness :
  let lines := ["a,b" +:+ newline; "1,2,3"] in
  let stored := <[Z.to_nat (2 - 1) := "1,2" +:+ newline]> lines in
  _interactive_repair lines [(2, "1,2,3", "Has 3 fields, expected 2")]
    (fresh_world [Line "y"; Line "1,2"] false)
    = repair_loop []
        (add_record (repaired_record 2)
           (set_lines stored (fresh_world [] false)))
  /\ stored !! Z.to_nat (2 - 1) = Some ("1,2" +:+ newline)
  /\ length stored = length lines
  /\ forall k : nat, k <> Z.to_nat (2 - 1) -> stored !! k = lines !! k.
Proof.
  apply (fix_stores_content_and_newline
           ["a,b" +:+ newline; "1,2,3"] 2 "1,2,3" "Has 3 fields, expected 2" []
           (fresh_world [Line "y"; Line "1,2"] false)
           (fresh_world [Line "1,2"] false)
           (fresh_world [] false) "1,2");
    [unfold len; simpl; lia | reflexivity | reflexivity].
Defined.


Lemma blank_header_expects_one_field_witness :
  _count_fields_respecting_quotes (" " +:+ newline) = 1
  /\ exists issues w',
       _detect_field_mismatches [" " +:+ newline; "1,2" +:+ newline]
         (fresh_world [] false) = (Ret issues, w')
       /\ ([ "1,2" +:+ newline ] <> [] ->
           logger w' = (logger (fresh_world [] false)
                        ++ [(INFO, "Header has 1 fields")])%list)
       /\ forall (k : nat) (line : string),
            [ "1,2" +:+ newline ] !! k = Some line ->
            whitespace_only line = false ->
            Nat.Even (occurrences quote line) ->
            _count_fields_respecting_quotes line <> 1 ->
            List.filter (at_line (Z.of_nat k + 2)) issues
            = [(Z.of_nat k + 2, strip line,
                "Has " +:+ str (_count_fields_respecting_quotes line)
                  +:+ " fields, expected 1")].
Proof.
  apply (blank_header_expects_one_field (" " +:+ newline)
           ["1,2" +:+ newline] (fresh_world [] false)).
  reflexivity.
Defined.

(** ** More on the field counter *)

(** The loop only adds to the count it is started with. *)
Lemma count_fields_loop_shift s : forall inside n d,
  count_fields_loop inside (n + d) s = count_fields_loop inside n s + d.
Proof.
  induction s as [|c s IH]; intros inside n d; [reflexivity|]. simpl.
  destruct (Ascii.eqb c quote); [apply IH|].
  destruct (Ascii.eqb c comma && negb inside); [|apply IH].
  replace (n + d + 1) with (n + 1 + d) by lia. apply IH.
Qed.

Lemma count_fields_loop_bounds s : forall inside n,
  n <= count_fields_loop inside n s <= n + count comma s.
Proof.
  induction s as [|c s IH]; intros inside n; simpl; [lia|].
  destruct (Ascii.eqb c quote) eqn:Eq.
  - assert (Ascii.eqb c comma = false) as ->.
    { apply Ascii.eqb_eq in Eq. subst c. reflexivity. }
    specialize (IH (negb inside) n). lia.
  - destruct (Ascii.eqb c comma); simpl.
    + destruct inside; simpl.
      * specialize (IH true n). lia.
      * specialize (IH false (n + 1)). lia.
    + specialize (IH inside n). lia.
Qed.

(** A whitespace character is neither a quote nor a comma. *)
Lemma isspace_inert c :
  isspace c = true -> Ascii.eqb c quote = false /\ Ascii.eqb c comma = false.
Proof.
  intros Hc. split; apply Ascii.eqb_neq; intros ->; discriminate.
Qed.

Lemma count_fields_loop_lstrip s : forall inside n,
  count_fields_loop inside n (lstrip s) = count_fields_loop inside n s.
Proof.
  induction s as [|c s IH]; intros inside n; [reflexivity|]. simpl lstrip.
  destruct (isspace c) eqn:Hc; [|reflexivity].
  destruct (isspace_inert c Hc) as [Hq Hm]. simpl. rewrite Hq, Hm. apply IH.
Qed.

Lemma count_fields_loop_rstrip s : forall inside n,
  count_fields_loop inside n (rstrip s) = count_fields_loop inside n s.
Proof.
  induction s as [|c s IH]; intros inside n; [reflexivity|].
  simpl rstrip. destruct (rstrip s) as [|d kept] eqn:Hr.
  - destruct (isspace c) eqn:Hc.
    + destruct (isspace_inert c Hc) as [Hq Hm]. simpl. rewrite Hq, Hm.
      simpl. rewrite <- IH. reflexivity.
    + simpl. destruct (Ascii.eqb c quote); [apply IH|].
      destruct (Ascii.eqb c comma && negb inside); apply IH.
  - simpl. destruct (Ascii.eqb c quote); [apply IH|].
    destruct (Ascii.eqb c comma && negb inside); apply IH.
Qed.

Lemma count_lstrip_inert c s :
  isspace c = false -> count c (lstrip s) = count c s.
Proof.
  intros Hc. induction s as [|d s IH]; [reflexivity|]. simpl lstrip.
  destruct (isspace d) eqn:Hd; [|reflexivity].
  rewrite IH. simpl. destruct (Ascii.eqb d c) eqn:E; [|reflexivity].
  apply Ascii.eqb_eq in E. congruence.
Qed.

Lemma count_rstrip_inert c s :
  isspace c = false -> count c (rstrip s) = count c s.
Proof.
  intros Hc. induction s as [|d s IH]; [reflexivity|].
  simpl rstrip. destruct (rstrip s) as [|e kept] eqn:Hr.
  - destruct (isspace d) eqn:Hd.
    + simpl. rewrite <- IH. simpl.
      destruct (Ascii.eqb d c) eqn:E; [|reflexivity].
      apply Ascii.eqb_eq in E. congruence.
    + simpl. rewrite <- IH. reflexivity.
  - simpl. simpl in IH. rewrite IH. reflexivity.
Qed.

Lemma fields_strip line :
  _count_fields_respecting_quotes (strip line)
  = _count_fields_respecting_quotes line.
Proof.
  unfold _count_fields_respecting_quotes, strip.
  rewrite count_fields_loop_rstrip. apply count_fields_loop_lstrip.
Qed.

Lemma unbalanced_strip line :
  _has_unbalanced_quotes (strip line) = _has_unbalanced_quotes line.
Proof.
  rewrite !unbalanced_parity. unfold strip.
  rewrite count_rstrip_inert, count_lstrip_inert; reflexivity.
Qed.

Lemma fields_newline line :
  _count_fields_respecting_quotes (line +:+ newline)
  = _count_fields_respecting_quotes line.
Proof.
  unfold _count_fields_respecting_quotes. rewrite count_fields_loop_app. reflexivity.
Qed.

Lemma count_append c s t : count c (s +:+ t) = count c s + count c t.
Proof. induction s as [|d s IH]; simpl; [reflexivity|]. rewrite IH. lia. Qed.

Lemma unbalanced_newline line :
  _has_unbalanced_quotes (line +:+ newline) = _has_unbalanced_quotes line.
Proof.
  rewrite !unbalanced_parity, count_append. simpl. rewrite Z.add_0_r. reflexivity.
Qed.

(** X1: the field count of a line is at least 1 and at most 1 plus the
    number of commas in the line. *)
Theorem field_count_bounds (line : string) :
  1 <= _count_fields_respecting_quotes line
    <= 1 + Z.of_nat (occurrences comma line).
Proof.
  rewrite <- count_occurrences. apply count_fields_loop_bounds.
Qed.

(** X2: joining two rows with a comma adds their field counts, provided
    the first row has balanced quotes. *)
Theorem field_count_of_joined_rows (row1 row2 : string) :
  Nat.Even (occurrences quote row1) ->
  _count_fields_respecting_quotes (row1 +:+ "," +:+ row2)
  = _count_fields_respecting_quotes row1 + _count_fields_respecting_quotes row2.
Proof.
  intros Hbal. apply balanced_of_even in Hbal.
  unfold _count_fields_respecting_quotes.
  rewrite count_fields_loop_app, Hbal. simpl.
  rewrite (Z.add_comm _ 1), count_fields_loop_shift.
  change ("" +:+ row2) with row2. lia.
Qed.

Lemma field_count_of_joined_rows_witness :
  _count_fields_respecting_quotes
    (("a," +:+ dquote +:+ "b,c" +:+ dquote) +:+ "," +:+ "d,e")
  = _count_fields_respecting_quotes ("a," +:+ dquote +:+ "b,c" +:+ dquote)
    + _count_fields_respecting_quotes "d,e".
Proof.
  apply (field_count_of_joined_rows ("a," +:+ dquote +:+ "b,c" +:+ dquote) "d,e").
  exists 1%nat. reflexivity.
Defined.

(** X3: a doubled quote (the CSV escape of a quote inside a quoted field)
    changes neither the field count nor the quote balance of a line,
    wherever it stands. *)
Theorem doubled_quote_is_inert (before after : string) :
  _count_fields_respecting_quotes (before +:+ dquote +:+ dquote +:+ after)
  = _count_fields_respecting_quotes (before +:+ after)
  /\ _has_unbalanced_quotes (before +:+ dquote +:+ dquote +:+ after)
     = _has_unbalanced_quotes (before +:+ after).
Proof.
  split.
  - unfold _count_fields_respecting_quotes.
    rewrite !(count_fields_loop_app before). simpl.
    rewrite negb_involutive. reflexivity.
  - rewrite !unbalanced_parity, !count_append. simpl.
    replace (count quote before + (1 + 0 + (1 + 0 + count quote after)))
      with (Z.succ (Z.succ (count quote before + count quote after))) by lia.
    rewrite Z.odd_succ_succ. reflexivity.
Qed.

(** X4: surrounding whitespace and the final newline do not matter to the
    two checks: the trimmed content shown to the user, and the content a
    fix stores with its newline, count and balance like the text itself. *)
Theorem checks_ignore_surrounding_whitespace (line : string) :
  _count_fields_respecting_quotes (strip line)
  = _count_fields_respecting_quotes line
  /\ _has_unbalanced_quotes (strip line) = _has_unbalanced_quotes line
  /\ _count_fields_respecting_quotes (line +:+ newline)
     = _count_fields_respecting_quotes line
  /\ _has_unbalanced_quotes (line +:+ newline) = _has_unbalanced_quotes line.
Proof.
  split; [apply fields_strip|]. split; [apply unbalanced_strip|].
  split; [apply fields_newline | apply unbalanced_newline].
Qed.

(** ** More on the mismatch detector *)

(** Whatever the world, the issues returned are those of the loop over the
    data lines. *)
Lemma detect_value header data w :
  exists w',
    _detect_field_mismatches (header :: data) w
    = (Ret (detect_loop (_count_fields_respecting_quotes header) 2 data), w')
    /\ stdin w' = stdin w.
Proof.
  destruct data as [|l data].
  - exists w. split; reflexivity.
  - eexists. rewrite detect_returns by discriminate. split; reflexivity.
Qed.

(** A line is well formed for [expected_fields]: balanced quotes and the
    expected number of fields. *)
Lemma line_issues_nil e i line :
  line_issues e i line = []
  <-> whitespace_only line = true
      \/ (_has_unbalanced_quotes line = false
          /\ _count_fields_respecting_quotes line = e).
Proof.
  unfold line_issues. simpl. rewrite blank_test.
  destruct (whitespace_only line); [split; auto|].
  destruct (_has_unbalanced_quotes line).
  - split; [discriminate | intros [H|[H _]]; discriminate].
  - destruct (_count_fields_respecting_quotes line =? e) eqn:E; simpl.
    + apply Z.eqb_eq in E. split; auto.
    + apply Z.eqb_neq in E. split; [discriminate|].
      intros [H|[_ H]]; [discriminate | contradiction].
Qed.

Lemma line_issues_shape e i line iss :
  In iss (line_issues e i line) ->
  line_issues e i line = [iss]
  /\ iss.1.1 = i /\ iss.1.2 = strip line /\ whitespace_only line = false.
Proof.
  unfold line_issues. simpl. rewrite blank_test.
  destruct (whitespace_only line); [intros []|].
  destruct (_has_unbalanced_quotes line).
  - intros [<-|[]]. repeat split.
  - destruct (negb (_count_fields_respecting_quotes line =? e)); [|intros []].
    intros [<-|[]]. repeat split.
Qed.

Lemma detect_loop_in e data : forall i iss,
  In iss (detect_loop e i data) ->
  exists (k : nat) line,
    data !! k = Some line /\ issue_line iss = i + Z.of_nat k
    /\ In iss (line_issues e (i + Z.of_nat k) line).
Proof.
  induction data as [|l data IH]; intros i iss; [intros []|].
  rewrite detect_loop_cons, in_app_iff. intros [H|H].
  - exists 0%nat, l. replace (i + Z.of_nat 0) with i by lia.
    split; [reflexivity|]. split; [|exact H].
    apply line_issues_number in H. exact H.
  - apply IH in H as (k & line & Hk & Hn & Hin).
    exists (S k), line. replace (i + Z.of_nat (S k)) with (i + 1 + Z.of_nat k) by lia.
    split; [exact Hk|]. split; assumption.
Qed.

Lemma detect_loop_sorted e data : forall i,
  StronglySorted Z.lt (map issue_line (detect_loop e i data)).
Proof.
  induction data as [|l data IH]; intros i; [constructor|].
  rewrite detect_loop_cons.
  destruct (line_issues e i l) as [|iss rest] eqn:E; [apply IH|].
  destruct (line_issues_shape e i l iss) as (Hone & Hn & _).
  { rewrite E. left. reflexivity. }
  rewrite E in Hone. injection Hone as ->. simpl. constructor; [apply IH|].
  apply List.Forall_forall. intros n Hin. apply in_map_iff in Hin as (x & <- & Hx).
  apply detect_loop_numbers in Hx. unfold issue_line in *. lia.
Qed.

Lemma detect_loop_length e data : forall i,
  (length (detect_loop e i data) <= length data)%nat.
Proof.
  induction data as [|l data IH]; intros i; [reflexivity|].
  rewrite detect_loop_cons, length_app. specialize (IH (i + 1)).
  assert (length (line_issues e i l) <= 1)%nat.
  { destruct (line_issues e i l) as [|iss rest] eqn:E; [simpl; lia|].
    destruct (line_issues_shape e i l iss) as (Hone & _); [rewrite E; left; reflexivity|].
    rewrite E in Hone. rewrite Hone. simpl. lia. }
  simpl length. lia.
Qed.

Lemma detect_loop_nil e data : forall i,
  detect_loop e i data = []
  <-> forall (k : nat) line, data !! k = Some line -> line_issues e (i + Z.of_nat k) line = [].
Proof.
  induction data as [|l data IH]; intros i.
  - split; [intros _ k line Hk; discriminate | reflexivity].
  - rewrite detect_loop_cons. split.
    + intros H. apply app_eq_nil in H as [H0 Hrest]. intros [|k] line Hk.
      * injection Hk as <-. replace (i + Z.of_nat 0) with i by lia. exact H0.
      * replace (i + Z.of_nat (S k)) with (i + 1 + Z.of_nat k) by lia.
        apply (proj1 (IH (i + 1)) Hrest k line Hk).
    + intros H. rewrite (proj2 (IH (i + 1))).
      * specialize (H 0%nat l eq_refl).
        replace (i + Z.of_nat 0) with i in H by lia. rewrite H. reflexivity.
      * intros k line Hk. specialize (H (S k) line Hk).
        replace (i + Z.of_nat (S k)) with (i + 1 + Z.of_nat k) in H by lia. exact H.
Qed.

(** X5: a data line that is not blank, has balanced quotes and a field
    count other than the header's gets exactly one issue, whose description
    names the count found and the count expected. *)
Theorem mismatch_reports_both_counts
    (header : string) (data : list string) (w : world) (k : nat) (line : string) :
  data !! k = Some line ->
  whitespace_only line = false ->
  Nat.Even (occurrences quote line) ->
  _count_fields_respecting_quotes line <> _count_fields_respecting_quotes header ->
  exists issues w',
    _detect_field_mismatches (header :: data) w = (Ret issues, w')
    /\ List.filter (at_line (Z.of_nat k + 2)) issues
       = [(Z.of_nat k + 2, strip line,
           "Has " +:+ str (_count_fields_respecting_quotes line)
             +:+ " fields, expected "
             +:+ str (_count_fields_respecting_quotes header))].
Proof.
  intros Hk Hnb Hbal Hne. rewrite <- blank_test in Hnb.
  apply balanced_of_even in Hbal.
  destruct (detect_value header data w) as (w' & Hrun & _).
  eexists _, w'. split; [exact Hrun|].
  replace (Z.of_nat k + 2) with (2 + Z.of_nat k) by lia.
  rewrite (detect_loop_at _ _ _ _ _ Hk). unfold line_issues. simpl.
  rewrite Hnb, Hbal. apply Z.eqb_neq in Hne. rewrite Hne. reflexivity.
Qed.

Lemma mismatch_reports_both_counts_witness :
  exists issues w',
    _detect_field_mismatches ["a,b,c" +:+ newline; "1,2" +:+ newline]
      (fresh_world [] false) = (Ret issues, w')
    /\ List.filter (at_line (Z.of_nat 0 + 2)) issues
       = [(Z.of_nat 0 + 2, strip ("1,2" +:+ newline),
           "Has " +:+ str (_count_fields_respecting_quotes ("1,2" +:+ newline))
             +:+ " fields, expected "
             +:+ str (_count_fields_respecting_quotes ("a,b,c" +:+ newline)))].
Proof.
  apply (mismatch_reports_both_counts ("a,b,c" +:+ newline) ["1,2" +:+ newline]
           (fresh_world [] false) 0 ("1,2" +:+ newline));
    [reflexivity | reflexivity | exists 0%nat; reflexivity | discriminate].
Defined.

(** X6: detection reports nothing at a data line exactly when the line is
    blank, or has balanced quotes and the header's field count. *)
Theorem unflagged_iff_blank_or_well_formed
    (header : string) (data : list string) (w : world) (k : nat) (line : string) :
  data !! k = Some line ->
  exists issues w',
    _detect_field_mismatches (header :: data) w = (Ret issues, w')
    /\ (List.filter (at_line (Z.of_nat k + 2)) issues = []
        <-> whitespace_only line = true
            \/ (Nat.Even (occurrences quote line)
                /\ _count_fields_respecting_quotes line
                   = _count_fields_respecting_quotes header)).
Proof.
  intros Hk. destruct (detect_value header data w) as (w' & Hrun & _).
  eexists _, w'. split; [exact Hrun|].
  replace (Z.of_nat k + 2) with (2 + Z.of_nat k) by lia.
  rewrite (detect_loop_at _ _ _ _ _ Hk), line_issues_nil.
  rewrite unbalanced_odd_occurrences, <- Nat.negb_even, negb_false_iff,
    Nat.even_spec. reflexivity.
Qed.

Lemma unflagged_iff_blank_or_well_formed_witness :
  exists issues w',
    _detect_field_mismatches ["a,b,c" +:+ newline; "1,2,3" +:+ newline]
      (fresh_world [] false) = (Ret issues, w')
    /\ (List.filter (at_line (Z.of_nat 0 + 2)) issues = []
        <-> whitespace_only ("1,2,3" +:+ newline) = true
            \/ (Nat.Even (occurrences quote ("1,2,3" +:+ newline))
                /\ _count_fields_respecting_quotes ("1,2,3" +:+ newline)
                   = _count_fields_respecting_quotes ("a,b,c" +:+ newline))).
Proof.
  apply (unflagged_iff_blank_or_well_formed ("a,b,c" +:+ newline)
           ["1,2,3" +:+ newline] (fresh_world [] false) 0 ("1,2,3" +:+ newline)).
  reflexivity.
Defined.

(** X7: the issues come in strictly ascending line order, so no line is
    reported twice, and there are at most as many issues as data lines. *)
Theorem issues_strictly_ascending
    (lines : list string) (w w' : world) (issues : list issue) :
  _detect_field_mismatches lines w = (Ret issues, w') ->
  StronglySorted Z.lt (map issue_line issues)
  /\ (length issues <= length lines - 1)%nat.
Proof.
  destruct lines as [|header data].
  - intros [= <- _]. split; [constructor | simpl; lia].
  - destruct (detect_value header data w) as (w2 & -> & _). intros H.
    assert (issues = detect_loop (_count_fields_respecting_quotes header) 2 data)
      as -> by congruence.
    split; [apply detect_loop_sorted|].
    pose proof (detect_loop_length (_count_fields_respecting_quotes header) data 2).
    simpl length. lia.
Qed.

Lemma issues_strictly_ascending_witness :
  StronglySorted Z.lt (map issue_line sample_issues)
  /\ (length sample_issues <= length sample_file - 1)%nat.
Proof.
  apply (issues_strictly_ascending sample_file (fresh_world [] false)
           (add_record (INFO, "Header has 3 fields") (fresh_world [] false))
           sample_issues).
  reflexivity.
Defined.

(** X8: every issue points at a data line of the document: its number is
    between 2 and the number of lines, its content is that line trimmed,
    and that line is not blank (blank lines are never reported). *)
Theorem issue_points_at_its_line
    (lines : list string) (w w' : world) (issues : list issue)
    (n : Z) (content desc : string) :
  _detect_field_mismatches lines w = (Ret issues, w') ->
  In (n, content, desc) issues ->
  2 <= n <= len lines
  /\ exists line,
       lines !! Z.to_nat (n - 1) = Some line
       /\ content = strip line
       /\ whitespace_only line = false.
Proof.
  destruct lines as [|header data]; [intros [= <- _] []|].
  destruct (detect_value header data w) as (w2 & -> & _). intros H Hin.
  assert (issues = detect_loop (_count_fields_respecting_quotes header) 2 data)
    as -> by congruence.
  pose proof (detect_loop_numbers _ _ _ _ Hin) as Hrange.
  apply detect_loop_in in Hin as (k & line & Hk & Hn & Hin).
  apply line_issues_shape in Hin as (_ & _ & Hc & Hnb).
  unfold issue_line in *. simpl in *. subst n.
  split; [unfold len in *; simpl length; lia|].
  exists line. replace (Z.to_nat (2 + Z.of_nat k - 1)) with (S k) by lia.
  split; [exact Hk|]. split; assumption.
Qed.

Lemma issue_points_at_its_line_witness :
  2 <= 3 <= len sample_file
  /\ exists line,
       sample_file !! Z.to_nat (3 - 1) = Some line
       /\ open_quote_line = strip line
       /\ whitespace_only line = false.
Proof.
  apply (issue_points_at_its_line sample_file (fresh_world [] false)
           (add_record (INFO, "Header has 3 fields") (fresh_world [] false))
           sample_issues 3 open_quote_line "Unbalanced quotes");
    [reflexivity | right; left; reflexivity].
Defined.

(** X9: detection finds nothing exactly when every data line is blank, or
    has balanced quotes and the header's field count. *)
Theorem no_issue_iff_all_lines_well_formed
    (header : string) (data : list string) (w : world) :
  exists issues w',
    _detect_field_mismatches (header :: data) w = (Ret issues, w')
    /\ (issues = []
        <-> forall (k : nat) (line : string),
              data !! k = Some line ->
              whitespace_only line = true
              \/ (Nat.Even (occurrences quote line)
                  /\ _count_fields_respecting_quotes line
                     = _count_fields_respecting_quotes header)).
Proof.
  destruct (detect_value header data w) as (w' & Hrun & _).
  eexists _, w'. split; [exact Hrun|]. rewrite detect_loop_nil.
  split; intros H k line Hk; specialize (H k line Hk).
  - apply line_issues_nil in H. destruct H as [H|[Hb Hc]]; [left; exact H|].
    right. split; [|exact Hc].
    rewrite unbalanced_odd_occurrences, <- Nat.negb_even, negb_false_iff in Hb.
    apply Nat.even_spec, Hb.
  - apply line_issues_nil. destruct H as [H|[Hb Hc]]; [left; exact H|].
    right. split; [apply balanced_of_even, Hb | exact Hc].
Qed.

(** X10: re-running detection after one data line was replaced by a fix
    stored with its newline: if the fix has balanced quotes and the
    header's field count, nothing is reported at that line any more, and
    at every other line the report is what it was before the fix. *)
Theorem valid_fix_clears_its_line
    (header : string) (data : list string) (w : world) (k : nat) (fixed : string) :
  Nat.Even (occurrences quote fixed) ->
  _count_fields_respecting_quotes fixed = _count_fields_respecting_quotes header ->
  (k < length data)%nat ->
  exists before after w1 w2,
    _detect_field_mismatches (header :: data) w = (Ret before, w1)
    /\ _detect_field_mismatches (header :: <[k := fixed +:+ newline]> data) w
       = (Ret after, w2)
    /\ List.filter (at_line (Z.of_nat k + 2)) after = []
    /\ forall j : nat,
         j <> k ->
         List.filter (at_line (Z.of_nat j + 2)) after
         = List.filter (at_line (Z.of_nat j + 2)) before.
Proof.
  intros Hbal Hcount Hk. apply balanced_of_even in Hbal.
  destruct (detect_value header data w) as (w1 & Hrun1 & _).
  destruct (detect_value header (<[k := fixed +:+ newline]> data) w)
    as (w2 & Hrun2 & _).
  eexists _, _, w1, w2. split; [exact Hrun1|]. split; [exact Hrun2|]. split.
  - replace (Z.of_nat k + 2) with (2 + Z.of_nat k) by lia.
    rewrite (detect_loop_at _ _ _ k (fixed +:+ newline))
      by (apply list_lookup_insert_eq, Hk).
    apply line_issues_nil. right.
    rewrite unbalanced_newline, fields_newline. split; assumption.
  - intros j Hj. replace (Z.of_nat j + 2) with (2 + Z.of_nat j) by lia.
    destruct (data !! j) as [line|] eqn:Ej.
    + rewrite (detect_loop_at _ _ _ j line)
        by (rewrite list_lookup_insert_ne by congruence; exact Ej).
      rewrite (detect_loop_at _ _ _ j line Ej). reflexivity.
    + apply lookup_ge_None in Ej.
      rewrite !filter_none; [reflexivity| |];
        intros x Hx; apply detect_loop_numbers in Hx; apply Z.eqb_neq;
        unfold len in Hx; rewrite ?length_insert in Hx; lia.
Qed.

Lemma valid_fix_clears_its_line_witness :
  exists before after w1 w2,
    _detect_field_mismatches ["a,b,c" +:+ newline; "1,2" +:+ newline]
      (fresh_world [] false) = (Ret before, w1)
    /\ _detect_field_mismatches
         (("a,b,c" +:+ newline) :: <[0%nat := "1,2,3" +:+ newline]> ["1,2" +:+ newline])
         (fresh_world [] false) = (Ret after, w2)
    /\ List.filter (at_line (Z.of_nat 0 + 2)) after = []
    /\ forall j : nat,
         j <> 0%nat ->
         List.filter (at_line (Z.of_nat j + 2)) after
         = List.filter (at_line (Z.of_nat j + 2)) before.
Proof.
  apply (valid_fix_clears_its_line ("a,b,c" +:+ newline) ["1,2" +:+ newline]
           (fresh_world [] false) 0 "1,2,3");
    [exists 0%nat; reflexivity | reflexivity | simpl; lia].
Defined.

(** ** More on the prompts *)

Lemma rstrip_idempotent s : rstrip (rstrip s) = rstrip s.
Proof.
  induction s as [|c s IH]; [reflexivity|]. simpl rstrip.
  destruct (rstrip s) as [|d kept] eqn:Hr.
  - destruct (isspace c) eqn:Hc; [reflexivity|]. simpl. rewrite Hc. reflexivity.
  - change (rstrip (String c (String d kept))) with
      (match rstrip (String d kept) with
       | EmptyString => if isspace c then EmptyString else String c EmptyString
       | kept' => String c kept'
       end).
    rewrite IH. reflexivity.
Qed.

Lemma rstrip_keeps_head c s :
  isspace c = false -> exists rest, rstrip (String c s) = String c rest.
Proof.
  intros Hc. simpl. destruct (rstrip s) as [|d kept].
  - rewrite Hc. eexists. reflexivity.
  - eexists. reflexivity.
Qed.

(** [strip] leaves nothing more to strip. *)
Lemma strip_idempotent s : strip (strip s) = strip s.
Proof.
  unfold strip. destruct (whitespace_only s) eqn:E.
  - rewrite (lstrip_blank s E). reflexivity.
  - destruct (lstrip_not_blank s E) as (c & rest & -> & Hc).
    destruct (rstrip_keeps_head c rest Hc) as (kept & Hk).
    rewrite Hk. simpl lstrip. rewrite Hc, <- Hk. apply rstrip_idempotent.
Qed.

Lemma strip_not_blank s : falsy (strip s) = false -> strip s <> "".
Proof. intros H E. rewrite E in H. discriminate. Qed.

(** *** [confirm_action] under the recursion limit *)

Lemma falsy_lower s : falsy (lower s) = falsy s.
Proof. destruct s; reflexivity. Qed.

Lemma not_an_answer_asks_again default typed :
  not_an_answer typed -> confirm_reading default typed = None.
Proof.
  intros [Hnb Hword]. unfold confirm_reading. cbv zeta.
  rewrite falsy_lower, blank_test, Hnb.
  rewrite (member_not_In (lower (strip typed)) ["y"; "yes"])
    by (intros H; apply Hword; simpl in *; tauto).
  rewrite (member_not_In (lower (strip typed)) ["n"; "no"])
    by (intros H; apply Hword; simpl in *; tauto).
  reflexivity.
Qed.

Lemma answers_settles default typed answer :
  answers default typed answer -> confirm_reading default typed = Some answer.
Proof.
  unfold confirm_reading. cbv zeta. rewrite falsy_lower, blank_test.
  intros [[Hb ->]|[[Hy ->]|[Hn ->]]].
  - rewrite Hb. reflexivity.
  - assert (whitespace_only typed = false) as ->.
    { rewrite <- blank_test. destruct (strip typed); [|reflexivity].
      simpl in Hy. destruct Hy as [H|[H|[]]]; discriminate. }
    rewrite (proj2 (member_In _ _) Hy). reflexivity.
  - assert (whitespace_only typed = false) as ->.
    { rewrite <- blank_test. destruct (strip typed); [|reflexivity].
      simpl in Hn. destruct Hn as [H|[H|[]]]; discriminate. }
    rewrite (member_not_In (lower (strip typed)) ["y"; "yes"]).
    + rewrite (proj2 (member_In _ _) Hn). reflexivity.
    + intros Hy. simpl in Hy, Hn.
      destruct Hn as [Hn|[Hn|[]]]; rewrite <- Hn in Hy;
        destruct Hy as [Hy|[Hy|[]]]; discriminate.
Qed.

(** While calls are allowed, every line that is no answer costs one. *)
Lemma confirm_limited_skips default bad : forall depth pending,
  Forall not_an_answer bad ->
  (length bad <= depth)%nat ->
  confirm_action_limited_on depth default (map Line bad ++ pending)%list
  = confirm_action_limited_on (depth - length bad) default pending.
Proof.
  induction bad as [|typed bad IH]; intros depth pending Hbad Hlen.
  - simpl. rewrite Nat.sub_0_r. reflexivity.
  - inversion Hbad as [|? ? Hty Hbad']; subst.
    destruct depth as [|depth]; [simpl in Hlen; lia|]. simpl.
    rewrite (not_an_answer_asks_again default typed Hty).
    apply IH; [exact Hbad' | simpl in Hlen; lia].
Qed.

(** With more lines that are no answers than calls allowed, the limit is
    hit after [depth] of them. *)
Lemma confirm_limited_exhausted default bad : forall depth pending,
  Forall not_an_answer bad ->
  (depth <= length bad)%nat ->
  confirm_action_limited_on depth default (map Line bad ++ pending)%list
  = (Raise RecursionError, (map Line (drop depth bad) ++ pending)%list).
Proof.
  induction bad as [|typed bad IH]; intros depth pending Hbad Hlen.
  - destruct depth; [reflexivity | simpl in Hlen; lia].
  - inversion Hbad as [|? ? Hty Hbad']; subst.
    destruct depth as [|depth]; [reflexivity|]. simpl.
    rewrite (not_an_answer_asks_again default typed Hty).
    apply IH; [exact Hbad' | simpl in Hlen; lia].
Qed.

(** The functions without a limit are the limited ones when more calls
    are allowed than lines are pending. *)
Lemma confirm_limited_deep_enough default pending : forall depth,
  (length pending < depth)%nat ->
  confirm_action_limited_on depth default pending
  = confirm_action_on default pending.
Proof.
  induction pending as [|[typed|] pending IH]; intros depth Hlen;
    (destruct depth as [|depth]; [simpl in Hlen; lia|]); simpl;
    [reflexivity| |reflexivity].
  destruct (confirm_reading default typed); [reflexivity|].
  apply IH. simpl in Hlen. lia.
Qed.

(** X11: [confirm_action] skips the lines that are no answers (not blank
    and none of y, yes, n, no once trimmed and lowered) and returns what
    the first answer says, a blank line standing for the default, leaving
    the lines after it unread; this as long as the recursion limit allows
    one call per line read.  With [depth] calls allowed and at least
    [depth] lines that are no answers, it raises [RecursionError] after
    reading [depth] of them. *)
Theorem confirm_skips_invalid_answers
    (depth : nat) (message : string) (default answer : bool)
    (bad : list string) (good : string) (pending : list event) (w : world) :
  Forall not_an_answer bad ->
  answers default good answer ->
  stdin w = (map Line bad ++ Line good :: pending)%list ->
  ((length bad < depth)%nat ->
   confirm_action_limited depth message default w
   = (Ret answer, set_stdin pending w))
  /\ ((depth <= length bad)%nat ->
      confirm_action_limited depth message default w
      = (Raise RecursionError,
         set_stdin (map Line (drop depth bad) ++ Line good :: pending)%list w)).
Proof.
  intros Hbad Hgood Hin. unfold confirm_action_limited. rewrite Hin. split.
  - intros Hlen. rewrite (confirm_limited_skips default bad) by (assumption || lia).
    destruct (depth - length bad)%nat as [|left] eqn:E; [lia|]. simpl.
    rewrite (answers_settles default good answer Hgood). reflexivity.
  - intros Hlen. rewrite (confirm_limited_exhausted default bad) by assumption.
    reflexivity.
Qed.

Lemma confirm_skips_invalid_answers_witness :
  ((length ["maybe"; "ok"] < 3)%nat ->
   confirm_action_limited 3 "Cancel entire repair process?" false
     (fresh_world [Line "maybe"; Line "ok"; Line " YES "; Line "n"] true)
   = (Ret true,
      set_stdin [Line "n"]
        (fresh_world [Line "maybe"; Line "ok"; Line " YES "; Line "n"] true)))
  /\ ((3 <= length ["maybe"; "ok"])%nat ->
      confirm_action_limited 3 "Cancel entire repair process?" false
        (fresh_world [Line "maybe"; Line "ok"; Line " YES "; Line "n"] true)
      = (Raise RecursionError,
         set_stdin
           (map Line (drop 3 ["maybe"; "ok"]) ++ Line " YES " :: [Line "n"])%list
           (fresh_world [Line "maybe"; Line "ok"; Line " YES "; Line "n"] true))).
Proof.
  apply (confirm_skips_invalid_answers 3 "Cancel entire repair process?" false true
           ["maybe"; "ok"] " YES " [Line "n"]).
  - repeat constructor; simpl; intros [H|[H|[H|[H|[]]]]]; discriminate.
  - right. left. split; [simpl; right; left; reflexivity | reflexivity].
  - reflexivity.
Defined.

(** X12: when the terminal ends after lines that are no answers (or at
    once), [confirm_action] raises [EOFError] and the default is not used;
    this as long as the recursion limit allows one call more than lines
    were read.  With [depth] calls allowed and at least [depth] such lines,
    it raises [RecursionError] instead. *)
Theorem confirm_without_answer_raises
    (depth : nat) (message : string) (default : bool) (bad : list string)
    (w : world) :
  Forall not_an_answer bad ->
  stdin w = map Line bad ->
  ((length bad < depth)%nat ->
   confirm_action_limited depth message default w
   = (Raise EOFError, set_stdin [] w))
  /\ ((depth <= length bad)%nat ->
      confirm_action_limited depth message default w
      = (Raise RecursionError, set_stdin (map Line (drop depth bad)) w)).
Proof.
  intros Hbad Hin. unfold confirm_action_limited.
  rewrite Hin, <- (app_nil_r (map Line bad)). split.
  - intros Hlen. rewrite (confirm_limited_skips default bad) by (assumption || lia).
    destruct (depth - length bad)%nat as [|left] eqn:E; [lia|]. reflexivity.
  - intros Hlen. rewrite (confirm_limited_exhausted default bad) by assumption.
    rewrite app_nil_r. reflexivity.
Qed.

Lemma confirm_without_answer_raises_witness :
  ((length ["maybe"; "ok"] < 2)%nat ->
   confirm_action_limited 2 "Do you want to fix line 2?" true
     (fresh_world [Line "maybe"; Line "ok"] true)
   = (Raise EOFError, set_stdin [] (fresh_world [Line "maybe"; Line "ok"] true)))
  /\ ((2 <= length ["maybe"; "ok"])%nat ->
      confirm_action_limited 2 "Do you want to fix line 2?" true
        (fresh_world [Line "maybe"; Line "ok"] true)
      = (Raise RecursionError,
         set_stdin (map Line (drop 2 ["maybe"; "ok"]))
           (fresh_world [Line "maybe"; Line "ok"] true))).
Proof.
  apply (confirm_without_answer_raises 2 "Do you want to fix line 2?" true
           ["maybe"; "ok"]).
  - repeat constructor; simpl; intros [H|[H|[H|[H|[]]]]]; discriminate.
  - reflexivity.
Defined.

(** X13: the text [edit_text_interactive] returns is the original or is
    not empty; from the fallback it is, when not the original, trimmed and
    none of the cancel words. *)
Theorem edited_text_is_original_or_not_empty
    (text message s : string) (w w' : world) :
  edit_text_interactive text message w = (Ret (Some s), w') ->
  s = text
  \/ (s <> ""
      /\ (has_prompt_toolkit w = false ->
          strip s = s
          /\ member (lower s) ["cancel"; "c"; "quit"; "q"] = false)).
Proof.
  unfold edit_text_interactive, try_except, bind, import_prompt_toolkit.
  destruct (has_prompt_toolkit w) eqn:Hk.
  - unfold edit_with_prompt_toolkit, try_except, bind, prompt, read_event.
    destruct (stdin w) as [|[edited|] pending]; unfold ret; simpl;
      try discriminate.
    destruct (falsy edited) eqn:Hf; [discriminate|].
    intros [= <- _]. right. split; [|discriminate].
    intros ->. discriminate.
  - simpl. unfold edit_with_input, bind, input, read_event.
    destruct (stdin w) as [|[typed|] pending]; try discriminate.
    cbv zeta. destruct (falsy (strip typed)) eqn:Hf.
    + unfold ret. intros [= <- _]. left. reflexivity.
    + destruct (member (lower (strip typed)) _) eqn:Hm; unfold ret;
        [discriminate|].
      intros [= <- _]. right. split; [apply strip_not_blank, Hf|].
      intros _. split; [apply strip_idempotent | exact Hm].
Qed.

Lemma edited_text_is_original_or_not_empty_witness :
  "1,2,3" = "1,2,3,4"
  \/ ("1,2,3" <> ""
      /\ (has_prompt_toolkit (fresh_world [Line "  1,2,3 "] false) = false ->
          strip "1,2,3" = "1,2,3"
          /\ member (lower "1,2,3") ["cancel"; "c"; "quit"; "q"] = false)).
Proof.
  apply (edited_text_is_original_or_not_empty "1,2,3,4" "Edit CSV line 2:" "1,2,3"
           (fresh_world [Line "  1,2,3 "] false) (fresh_world [] false)).
  reflexivity.
Defined.

(** ** More on the repair session *)

(** One turn of the loop in which the user confirms and the editor returns
    content for a line of the list. *)
Lemma repair_step_fix lines line_num line_content issue_desc issues w w1 w2 fixed :
  1 <= line_num <= len lines ->
  confirm_action ("Do you want to fix line " +:+ str line_num +:+ "?") true w
    = (Ret true, w1) ->
  edit_line_interactive line_content line_num w1 = (Ret (Some fixed), w2) ->
  _interactive_repair lines ((line_num, line_content, issue_desc) :: issues) w
  = repair_loop issues
      (add_record (repaired_record line_num)
         (set_lines (<[Z.to_nat (line_num - 1) := fixed +:+ newline]> lines) w2)).
Proof.
  intros Hrange H1 H2.
  unfold _interactive_repair, bind at 1, bind_lines. simpl repair_loop.
  unfold bind at 1. rewrite confirm_action_set_lines, H1.
  cbv beta iota delta [negb].
  unfold bind at 1. rewrite edit_line_set_lines, H2. cbv beta iota.
  unfold bind at 1, lines_setitem. simpl lines_cell.
  rewrite setitem_in_range by lia.
  unfold bind at 1, logger_info. reflexivity.
Qed.

Lemma setitem_out_of_range l i v : len l <= i -> setitem l i v = None.
Proof.
  intros H. unfold setitem. pose proof (Zle_0_nat (length l)). unfold len in *.
  replace (i <? 0) with false by (symmetry; apply Z.ltb_ge; lia).
  replace (i <? Z.of_nat (length l)) with false by (symmetry; apply Z.ltb_ge; lia).
  rewrite andb_false_r. reflexivity.
Qed.

(** Whatever the outcome of the loop, the list keeps its length and the
    lines that no issue numbers. *)
Lemma repair_loop_untouched issues :
  Forall (fun iss => 1 <= issue_line iss) issues ->
  forall w r w',
    repair_loop issues w = (r, w') ->
    length (lines_cell w') = length (lines_cell w)
    /\ forall k : nat,
         (forall iss, In iss issues -> issue_line iss <> Z.of_nat k + 1) ->
         lines_cell w' !! k = lines_cell w !! k.
Proof.
  induction 1 as [|[[line_num line_content] issue_desc] issues Hn Hall IH];
    intros w r w' Hrun.
  - injection Hrun as _ <-. split; reflexivity.
  - unfold issue_line in Hn. simpl in Hn, Hrun.
    assert (Hrest : forall k : nat,
      (forall iss, In iss ((line_num, line_content, issue_desc) :: issues) ->
                   issue_line iss <> Z.of_nat k + 1) ->
      forall iss, In iss issues -> issue_line iss <> Z.of_nat k + 1)
      by (intros k H iss Hin; apply H; right; exact Hin).
    unfold bind at 1 in Hrun.
    destruct (confirm_action _ true w) as [[should_fix|e] w1] eqn:E1;
      apply confirm_action_same_tool in E1 as (_ & L1 & _ & _).
    2:{ injection Hrun as _ <-. rewrite L1. split; reflexivity. }
    destruct should_fix; simpl in Hrun.
    2:{ unfold bind at 1, logger_info in Hrun.
        apply IH in Hrun as (Hlen & Hkeep). simpl in Hlen, Hkeep.
        rewrite L1 in Hlen, Hkeep. split; [exact Hlen|].
        intros k Hk. apply Hkeep, Hrest, Hk. }
    unfold bind at 1 in Hrun.
    destruct (edit_line_interactive line_content line_num w1)
      as [[fixed_line|e] w2] eqn:E2;
      apply edit_line_same_tool in E2 as (_ & L2 & _ & _).
    2:{ injection Hrun as _ <-. rewrite L2, L1. split; reflexivity. }
    destruct fixed_line as [fixed|].
    + unfold bind at 1, lines_setitem in Hrun.
      destruct (setitem (lines_cell w2) (line_num - 1) (fixed +:+ newline))
        as [ls|] eqn:Es.
      2:{ injection Hrun as _ <-. rewrite L2, L1. split; reflexivity. }
      apply setitem_Some in Es as [Hlt ->]; [|lia].
      unfold bind at 1, logger_info in Hrun.
      apply IH in Hrun as (Hlen & Hkeep). simpl in Hlen, Hkeep.
      rewrite length_insert, L2, L1 in Hlen. split; [exact Hlen|].
      intros k Hk. rewrite (Hkeep k (Hrest k Hk)), L2, L1.
      apply list_lookup_insert_ne. intros Heq.
      apply (Hk (line_num, line_content, issue_desc)); [left; reflexivity|].
      unfold issue_line. simpl. lia.
    + unfold bind at 1 in Hrun.
      destruct (confirm_action _ false w2) as [[abort|e] w3] eqn:E3;
        apply confirm_action_same_tool in E3 as (_ & L3 & _ & _).
      2:{ injection Hrun as _ <-. rewrite L3, L2, L1. split; reflexivity. }
      destruct abort.
      * injection Hrun as _ <-. rewrite L3, L2, L1. split; reflexivity.
      * apply IH in Hrun as (Hlen & Hkeep). rewrite L3, L2, L1 in Hlen, Hkeep.
        split; [exact Hlen|]. intros k Hk. apply Hkeep, Hrest, Hk.
Qed.

(** X14: whatever the outcome of the session (the list returned, the
    repair aborted, an exception), the list object keeps its length, and
    every line whose number is not that of an issue holds what it held. *)
Theorem unflagged_lines_survive_any_outcome
    (lines : list string) (issues : list issue) (w w' : world)
    (r : res (option (list string))) :
  Forall (fun iss => 1 <= issue_line iss) issues ->
  _interactive_repair lines issues w = (r, w') ->
  length (lines_cell w') = length lines
  /\ forall k : nat,
       (forall iss, In iss issues -> issue_line iss <> Z.of_nat k + 1) ->
       lines_cell w' !! k = lines !! k.
Proof.
  intros Hnum. unfold _interactive_repair, bind at 1, bind_lines. intros Hrun.
  apply (repair_loop_untouched issues Hnum) in Hrun. exact Hrun.
Qed.

Lemma unflagged_lines_survive_any_outcome_witness :
  length (lines_cell (set_lines sample_file (fresh_world [] false)))
  = length sample_file
  /\ forall k : nat,
       (forall iss, In iss sample_issues -> issue_line iss <> Z.of_nat k + 1) ->
       lines_cell (set_lines sample_file (fresh_world [] false)) !! k
       = sample_file !! k.
Proof.
  apply (unflagged_lines_survive_any_outcome sample_file sample_issues
           (fresh_world [Line "y"; CtrlC] false)
           (set_lines sample_file (fresh_world [] false))
           (Raise KeyboardInterrupt));
    [|reflexivity].
  repeat constructor; unfold issue_line; simpl; lia.
Defined.

(** X15: a fix is not rolled back.  Once the user has confirmed an issue
    and the editor has returned content for it, the line holds that
    content and a newline at the end of the session whatever its outcome,
    also when a later issue aborts the repair ([None]) or raises, as long
    as no later issue has the same line number. *)
Theorem fix_survives_later_abort
    (lines : list string) (line_num : Z) (line_content issue_desc : string)
    (issues : list issue) (w w1 w2 w' : world) (fixed : string)
    (r : res (option (list string))) :
  1 <= line_num <= len lines ->
  Forall (fun iss => 1 <= issue_line iss /\ issue_line iss <> line_num) issues ->
  confirm_action ("Do you want to fix line " +:+ str line_num +:+ "?") true w
    = (Ret true, w1) ->
  edit_line_interactive line_content line_num w1 = (Ret (Some fixed), w2) ->
  _interactive_repair lines ((line_num, line_content, issue_desc) :: issues) w
    = (r, w') ->
  lines_cell w' !! Z.to_nat (line_num - 1) = Some (fixed +:+ newline).
Proof.
  intros Hrange Hrest H1 H2.
  rewrite (repair_step_fix _ _ _ _ _ _ _ _ _ Hrange H1 H2). intros Hrun.
  apply repair_loop_untouched in Hrun as (_ & Hkeep).
  - rewrite Hkeep.
    + simpl lines_cell. apply list_lookup_insert_eq. unfold len in Hrange. lia.
    + intros iss Hin. rewrite List.Forall_forall in Hrest.
      destruct (Hrest iss Hin) as [_ Hne]. lia.
  - eapply List.Forall_impl; [|exact Hrest]. intros iss [H _]. exact H.
Qed.

Lemma fix_survives_later_abort_witness :
  lines_cell
    (set_lines ["a,b,c" +:+ newline; "1,2,3" +:+ newline;
                open_quote_line +:+ newline]
       (fresh_world [] false))
    !! Z.to_nat (2 - 1)
  = Some ("1,2,3" +:+ newline).
Proof.
  apply (fix_survives_later_abort sample_file 2 "1,2" "Has 2 fields, expected 3"
           [(3, open_quote_line, "Unbalanced quotes")]
           (fresh_world [Line "y"; Line "1,2,3"; Line "y"; Line "cancel"; Line "y"] false)
           (fresh_world [Line "1,2,3"; Line "y"; Line "cancel"; Line "y"] false)
           (fresh_world [Line "y"; Line "cancel"; Line "y"] false)
           (set_lines ["a,b,c" +:+ newline; "1,2,3" +:+ newline;
                       open_quote_line +:+ newline]
              (add_record (repaired_record 2) (fresh_world [] false)))
           "1,2,3" (Ret None));
    [unfold len; simpl; lia
    | repeat constructor; unfold issue_line; simpl; lia
    | reflexivity | reflexivity | reflexivity].
Defined.

(** X16: an issue numbered beyond the end of the list makes the session
    raise [IndexError] once the user has typed the fix; the list is left
    as it was and the remaining issues are not presented. *)
Theorem fix_beyond_the_list_raises
    (lines : list string) (line_num : Z) (line_content issue_desc : string)
    (issues : list issue) (w w1 w2 : world) (fixed : string) :
  len lines < line_num ->
  confirm_action ("Do you want to fix line " +:+ str line_num +:+ "?") true w
    = (Ret true, w1) ->
  edit_line_interactive line_content line_num w1 = (Ret (Some fixed), w2) ->
  _interactive_repair lines ((line_num, line_content, issue_desc) :: issues) w
  = (Raise IndexError, set_lines lines w2).
Proof.
  intros Hrange H1 H2.
  unfold _interactive_repair, bind at 1, bind_lines. simpl repair_loop.
  unfold bind at 1. rewrite confirm_action_set_lines, H1.
  cbv beta iota delta [negb].
  unfold bind at 1. rewrite edit_line_set_lines, H2. cbv beta iota.
  unfold bind at 1, lines_setitem. simpl lines_cell.
  rewrite setitem_out_of_range by lia. reflexivity.
Qed.

Lemma fix_beyond_the_list_raises_witness :
  _interactive_repair ["a,b" +:+ newline] [(2, "1,2,3", "Has 3 fields, expected 2")]
    (fresh_world [Line "y"; Line "1,2"; Line "n"] false)
  = (Raise IndexError,
     set_lines ["a,b" +:+ newline] (fresh_world [Line "n"] false)).
Proof.
  apply (fix_beyond_the_list_raises ["a,b" +:+ newline] 2 "1,2,3"
           "Has 3 fields, expected 2" []
           (fresh_world [Line "y"; Line "1,2"; Line "n"] false)
           (fresh_world [Line "1,2"; Line "n"] false)
           (fresh_world [Line "n"] false) "1,2");
    [unfold len; simpl; lia | reflexivity | reflexivity].
Defined.

(** X17: in the fallback, pressing Enter to keep a line "unchanged" after
    confirming its fix still writes the line: the list then holds the
    issue's content (the trimmed line) and a newline, and the repair is
    logged. *)
Theorem keep_in_fallback_rewrites_the_line
    (lines : list string) (line_num : Z) (line_content issue_desc : string)
    (issues : list issue) (yes blank : string) (pending : list event)
    (w : world) :
  has_prompt_toolkit w = false ->
  confirm_reading true yes = Some true ->
  whitespace_only blank = true ->
  stdin w = Line yes :: Line blank :: pending ->
  1 <= line_num <= len lines ->
  _interactive_repair lines ((line_num, line_content, issue_desc) :: issues) w
  = repair_loop issues
      (add_record (repaired_record line_num)
         (set_lines (<[Z.to_nat (line_num - 1) := line_content +:+ newline]> lines)
            (set_stdin pending w))).
Proof.
  intros Hk Hyes Hblank Hin Hrange. rewrite <- blank_test in Hblank.
  rewrite (repair_step_fix lines line_num line_content issue_desc issues w
             (set_stdin (Line blank :: pending) w) (set_stdin pending w)
             line_content Hrange).
  - reflexivity.
  - unfold confirm_action. rewrite Hin. simpl. rewrite Hyes. reflexivity.
  - unfold edit_line_interactive, edit_text_interactive, try_except, bind,
      import_prompt_toolkit. simpl has_prompt_toolkit. rewrite Hk. simpl exn_eqb.
    cbv iota. unfold edit_with_input, bind, input, read_event. simpl stdin.
    cbv beta iota zeta. rewrite Hblank. reflexivity.
Qed.

Lemma keep_in_fallback_rewrites_the_line_witness :
  _interactive_repair ["a,b" +:+ newline; "  1,2,3  " +:+ newline]
    [(2, "1,2,3", "Has 3 fields, expected 2")]
    (fresh_world [Line "Yes"; Line " "] false)
  = repair_loop []
      (add_record (repaired_record 2)
         (set_lines
            (<[Z.to_nat (2 - 1) := "1,2,3" +:+ newline]>
               ["a,b" +:+ newline; "  1,2,3  " +:+ newline])
            (set_stdin [] (fresh_world [Line "Yes"; Line " "] false)))).
Proof.
  apply (keep_in_fallback_rewrites_the_line
           ["a,b" +:+ newline; "  1,2,3  " +:+ newline] 2 "1,2,3"
           "Has 3 fields, expected 2" [] "Yes" " " []
           (fresh_world [Line "Yes"; Line " "] false));
    [reflexivity | reflexivity | reflexivity | reflexivity
    | unfold len; simpl; lia].
Defined.

(** ** More on [process] *)

(** The session never writes [repairs_made]. *)
Lemma repair_loop_keeps_counter issues : forall w r w',
  repair_loop issues w = (r, w') -> repairs_made w' = repairs_made w.
Proof.
  induction issues as [|[[line_num line_content] issue_desc] issues IH];
    intros w r w' Hrun.
  - injection Hrun as _ <-. reflexivity.
  - simpl in Hrun. unfold bind at 1 in Hrun.
    destruct (confirm_action _ true w) as [[should_fix|e] w1] eqn:E1;
      apply confirm_action_same_tool in E1 as (_ & _ & _ & R1).
    2:{ injection Hrun as _ <-. exact R1. }
    destruct should_fix; simpl in Hrun.
    2:{ unfold bind at 1, logger_info in Hrun. apply IH in Hrun.
        simpl in Hrun. congruence. }
    unfold bind at 1 in Hrun.
    destruct (edit_line_interactive line_content line_num w1)
      as [[fixed_line|e] w2] eqn:E2;
      apply edit_line_same_tool in E2 as (_ & _ & _ & R2).
    2:{ injection Hrun as _ <-. congruence. }
    destruct fixed_line as [fixed|].
    + unfold bind at 1, lines_setitem in Hrun.
      destruct (setitem (lines_cell w2) (line_num - 1) (fixed +:+ newline)).
      2:{ injection Hrun as _ <-. congruence. }
      unfold bind at 1, logger_info in Hrun. apply IH in Hrun.
      simpl in Hrun. congruence.
    + unfold bind at 1 in Hrun.
      destruct (confirm_action _ false w2) as [[abort|e] w3] eqn:E3;
        apply confirm_action_same_tool in E3 as (_ & _ & _ & R3).
      2:{ injection Hrun as _ <-. congruence. }
      destruct abort.
      * injection Hrun as _ <-. congruence.
      * apply IH in Hrun. congruence.
Qed.

(** Detection only logs. *)
Lemma detect_only_logs lines w r wd :
  _detect_field_mismatches lines w = (r, wd) ->
  stdin wd = stdin w /\ repairs_made wd = repairs_made w.
Proof.
  destruct lines as [|header [|l data]].
  - intros [= _ <-]. split; reflexivity.
  - intros [= _ <-]. split; reflexivity.
  - rewrite detect_returns by discriminate. intros [= _ <-]. split; reflexivity.
Qed.

(** X18: a file in which every data line is blank or well formed passes
    through [process] untouched: the content returned is the lines joined,
    nothing is read from the terminal, and [repairs_made] keeps the value
    it had (it is not reset). *)
Theorem clean_file_passes_through
    (header : string) (data : list string) (w : world) :
  (forall (k : nat) (line : string),
     data !! k = Some line ->
     whitespace_only line = true
     \/ (Nat.Even (occurrences quote line)
         /\ _count_fields_respecting_quotes line
            = _count_fields_respecting_quotes header)) ->
  exists w',
    process (header :: data) w = (Ret (Some (join (header :: data))), w')
    /\ stdin w' = stdin w
    /\ repairs_made w' = repairs_made w.
Proof.
  intros Hclean. unfold process, bind at 1, logger_info. cbv zeta.
  cbv beta iota delta [falsy_list].
  unfold bind at 1, logger_info. unfold bind at 1.
  match goal with |- context [_detect_field_mismatches _ ?w0] =>
    destruct (detect_value header data w0) as (wd & Hdet & _);
    pose proof (detect_only_logs _ _ _ _ Hdet) as [Hs Hr]; rewrite Hdet end.
  assert (detect_loop (_count_fields_respecting_quotes header) 2 data = []) as ->.
  { apply detect_loop_nil. intros k line Hk. apply line_issues_nil.
    destruct (Hclean k line Hk) as [H|[Hb Hc]]; [left; exact H|].
    right. split; [apply balanced_of_even, Hb | exact Hc]. }
  cbv beta iota delta [negb falsy_list].
  unfold bind at 1, logger_info, process_join, bind, logger_info, ret.
  eexists. split; [reflexivity|]. simpl. split; [exact Hs | exact Hr].
Qed.

Lemma clean_file_passes_through_witness :
  exists w',
    process ["a,b,c" +:+ newline; "1,2,3" +:+ newline]
      (World [Line "y"] false [] [] 7)
    = (Ret (Some (join ["a,b,c" +:+ newline; "1,2,3" +:+ newline])), w')
    /\ stdin w' = stdin (World [Line "y"] false [] [] 7)
    /\ repairs_made w' = repairs_made (World [Line "y"] false [] [] 7).
Proof.
  apply (clean_file_passes_through ("a,b,c" +:+ newline) ["1,2,3" +:+ newline]
           (World [Line "y"] false [] [] 7)).
  intros [|k] line Hk; [|discriminate]. injection Hk as <-.
  right. split; [exists 0%nat; reflexivity | reflexivity].
Defined.

(** After its opening records and the detection, [process] is the branch
    on the issues found. *)
Lemma process_entry header data w :
  exists w0,
    stdin w0 = stdin w
    /\ repairs_made w0 = repairs_made w
    /\ process (header :: data) w
       = (let lines := header :: data in
          let issues :=
            detect_loop (_count_fields_respecting_quotes header) 2 data in
          if negb (falsy_list issues) then
            logger_info
              ("Found " +:+ str (len issues) +:+ " lines needing repair") ;;
            repaired <- _interactive_repair lines issues ;;
            match repaired with
            | None => logger_error "User cancelled repair process" ;; ret None
            | Some lines =>
                self_set_repairs_made (len issues) ;; process_join lines
            end
          else
            logger_info
              "No field mismatches detected! CSV structure looks good. Lucky you!" ;;
            process_join lines) w0.
Proof.
  unfold process, bind at 1, logger_info. cbv zeta.
  cbv beta iota delta [falsy_list].
  unfold bind at 1, logger_info. unfold bind at 1.
  match goal with |- context [_detect_field_mismatches _ ?w0] =>
    destruct (detect_value header data w0) as (wd & Hdet & _);
    pose proof (detect_only_logs _ _ _ _ Hdet) as [Hs Hr]; rewrite Hdet end.
  exists wd. split; [exact Hs|]. split; [exact Hr | reflexivity].
Qed.

(** X19: [process] writes [repairs_made] only when it returns content.
    When it returns [None] or raises, the counter keeps its value.  And it
    returns [None] only for an empty file, or when detection, run after
    the two opening records, found issues and the session, run on them
    after the "Found ..." record, returned [None]; the world is then the
    session's with the "User cancelled repair process" record added. *)
Theorem no_content_leaves_counter
    (file_lines : list string) (w w' : world) (r : res (option string)) :
  process file_lines w = (r, w') ->
  (forall content, r <> Ret (Some content)) ->
  repairs_made w' = repairs_made w
  /\ (r = Ret None ->
      file_lines = []
      \/ exists issues wd w1,
           issues <> []
           /\ _detect_field_mismatches file_lines
                (add_record (INFO, "Detecting field mismatches...")
                   (add_record (INFO, "Starting CSV structure repair...") w))
              = (Ret issues, wd)
           /\ _interactive_repair file_lines issues
                (add_record
                   (INFO, "Found " +:+ str (len issues)
                            +:+ " lines needing repair") wd)
              = (Ret None, w1)
           /\ w' = add_record (ERROR, "User cancelled repair process") w1).
Proof.
  destruct file_lines as [|header data].
  - intros [= <- <-] _. split; [reflexivity|]. intros _. left. reflexivity.
  - unfold process, bind at 1, logger_info. cbv zeta.
    cbv beta iota delta [falsy_list].
    unfold bind at 1, logger_info. unfold bind at 1.
    match goal with |- context [_detect_field_mismatches _ ?w0] =>
      destruct (_detect_field_mismatches (header :: data) w0)
        as [[issues|e] wd] eqn:Hdet;
      pose proof (detect_only_logs _ _ _ _ Hdet) as [_ Hr0] end.
    2:{ intros [= <- <-] _. split; [exact Hr0 | discriminate]. }
    destruct issues as [|iss issues]; cbv beta iota delta [negb falsy_list].
    + unfold bind at 1, logger_info, process_join, bind, logger_info, ret.
      intros [= <- _] Hno. exfalso. apply (Hno _ eq_refl).
    + unfold bind at 1, logger_info. unfold bind at 1.
      match goal with |- context [_interactive_repair _ _ ?w2] =>
        destruct (_interactive_repair (header :: data) (iss :: issues) w2)
          as [[[ls|]|e] w1] eqn:Erun end.
      * unfold bind at 1, self_set_repairs_made, process_join, bind, logger_info, ret.
        intros [= <- _] Hno. exfalso. apply (Hno _ eq_refl).
      * pose proof Erun as Eloop.
        unfold _interactive_repair, bind at 1, bind_lines in Eloop.
        pose proof (repair_loop_keeps_counter _ _ _ _ Eloop) as Hc. simpl in Hc.
        unfold bind, logger_error, ret. intros [= <- <-] _. simpl. split.
        -- rewrite Hc, Hr0. reflexivity.
        -- intros _. right. exists (iss :: issues), wd, w1.
           split; [discriminate|]. split; [reflexivity|].
           split; [exact Erun | reflexivity].
      * pose proof Erun as Eloop.
        unfold _interactive_repair, bind at 1, bind_lines in Eloop.
        pose proof (repair_loop_keeps_counter _ _ _ _ Eloop) as Hc. simpl in Hc.
        intros [= <- <-] _. split; [|discriminate]. rewrite Hc, Hr0. reflexivity.
Qed.

Lemma no_content_leaves_counter_witness :
  let w := World [Line "y"; Line ""; Line "y"] true [] [] 7 in
  let wd :=
    add_record (INFO, "Header has 3 fields")
      (add_record (INFO, "Detecting field mismatches...")
         (add_record (INFO, "Starting CSV structure repair...") w)) in
  let w1 :=
    set_lines sample_file
      (set_stdin [] (add_record (INFO, "Found 2 lines needing repair") wd)) in
  repairs_made (add_record (ERROR, "User cancelled repair process") w1)
  = repairs_made w
  /\ (@Ret (option string) None = Ret None ->
      sample_file = []
      \/ exists issues wd' w1',
           issues <> []
           /\ _detect_field_mismatches sample_file
                (add_record (INFO, "Detecting field mismatches...")
                   (add_record (INFO, "Starting CSV structure repair...") w))
              = (Ret issues, wd')
           /\ _interactive_repair sample_file issues
                (add_record
                   (INFO, "Found " +:+ str (len issues)
                            +:+ " lines needing repair") wd')
              = (Ret None, w1')
           /\ add_record (ERROR, "User cancelled repair process") w1
              = add_record (ERROR, "User cancelled repair process") w1').
Proof.
  intros w wd w1.
  apply (no_content_leaves_counter sample_file w
           (add_record (ERROR, "User cancelled repair process") w1) (Ret None));
    [reflexivity | discriminate].
Defined.

(** ** The numbered menu *)

Lemma split_on_not_nil sep s : split_on sep s <> [].
Proof.
  destruct s as [|c s]; simpl; [discriminate|].
  destruct (Ascii.eqb c sep); [discriminate|].
  destruct (split_on sep s); discriminate.
Qed.

Lemma ints_length int pieces ns :
  ints int pieces = Some ns -> length ns = length pieces.
Proof.
  revert ns. induction pieces as [|x pieces IH]; intros ns; simpl.
  - intros [= <-]. reflexivity.
  - destruct (int x); [|discriminate].
    destruct (ints int pieces) as [ms|]; [|discriminate].
    intros [= <-]. simpl. f_equal. apply IH. reflexivity.
Qed.

(** A selection read off one line: at least one index, one exactly in
    single mode, each a position of [options]. *)
Lemma choose_reading_selection int options allow_multiple typed indices :
  choose_reading int options allow_multiple typed = Some (Some indices) ->
  Forall (fun i => 0 <= i < len options) indices
  /\ indices <> []
  /\ (allow_multiple = false -> length indices = 1%nat).
Proof.
  unfold choose_reading. cbv zeta.
  destruct (String.eqb (strip typed) "0" || member _ _); [discriminate|].
  destruct (if allow_multiple then _ else _) as [choices|] eqn:Ep; [|discriminate].
  destruct (existsb _ choices) eqn:Ex; [discriminate|]. intros [= <-].
  assert (Hlen : length choices <> 0%nat
                 /\ (allow_multiple = false -> length choices = 1%nat)).
  { destruct allow_multiple.
    - apply ints_length in Ep. rewrite length_map in Ep. split; [|discriminate].
      rewrite Ep. pose proof (split_on_not_nil comma (strip typed)).
      destruct (split_on comma (strip typed)); [contradiction | discriminate].
    - apply ints_length in Ep. simpl in Ep. split; [lia | intros _; exact Ep]. }
  split; [|split].
  - apply List.Forall_forall. intros i Hi. apply in_map_iff in Hi as (c & <- & Hc).
    assert (Hin : (c <? 1) || (len options <? c) = false).
    { destruct ((c <? 1) || (len options <? c)) eqn:E; [|reflexivity].
      rewrite <- Ex. symmetry. apply existsb_exists. exists c. split; assumption. }
    apply orb_false_iff in Hin as [H1 H2].
    apply Z.ltb_ge in H1. apply Z.ltb_ge in H2. lia.
  - destruct choices; [destruct Hlen as [H _]; contradiction | discriminate].
  - intros Hm. rewrite length_map. apply Hlen, Hm.
Qed.

Lemma choose_from_list_on_selection int options allow_multiple pending :
  forall indices rest,
    choose_from_list_on int options allow_multiple pending
    = (Ret (Some indices), rest) ->
    exists typed,
      choose_reading int options allow_multiple typed = Some (Some indices).
Proof.
  induction pending as [|[typed|] pending IH]; intros indices rest; simpl;
    [discriminate| |discriminate].
  destruct (choose_reading int options allow_multiple typed) as [result|] eqn:E.
  - intros [= -> _]. exists typed. exact E.
  - apply IH.
Qed.

Lemma choose_from_list_on_rejected int options allow_multiple bad pending :
  Forall (fun typed => choose_reading int options allow_multiple typed = None) bad ->
  choose_from_list_on int options allow_multiple (map Line bad ++ pending)%list
  = choose_from_list_on int options allow_multiple pending.
Proof.
  induction 1 as [|typed bad Hbad _ IH]; [reflexivity|].
  simpl. rewrite Hbad. exact IH.
Qed.

Lemma choose_from_list_raises int options allow_multiple pending e rest :
  choose_from_list_on int options allow_multiple pending = (Raise e, rest) ->
  e = EOFError \/ e = KeyboardInterrupt.
Proof.
  induction pending as [|[typed|] pending IH]; simpl.
  - intros [= <- _]. left. reflexivity.
  - destruct (choose_reading int options allow_multiple typed);
      [discriminate | exact IH].
  - intros [= <- _]. right. reflexivity.
Qed.

Lemma menu_selection int options message allow_multiple w w' indices :
  choose_from_list int options message allow_multiple w
    = (Ret (Some indices), w') ->
  Forall (fun i => 0 <= i < len options) indices
  /\ indices <> []
  /\ (allow_multiple = false -> length indices = 1%nat).
Proof.
  unfold choose_from_list.
  destruct (choose_from_list_on int options allow_multiple (stdin w))
    as [result pending] eqn:E.
  intros [= -> _].
  apply choose_from_list_on_selection in E as (typed & Ht).
  apply (choose_reading_selection _ _ _ _ _ Ht).
Qed.

Lemma menu_same_tool int options message allow_multiple w r w' :
  choose_from_list int options message allow_multiple w = (r, w') ->
  same_tool w w'.
Proof.
  unfold choose_from_list.
  destruct (choose_from_list_on int options allow_multiple (stdin w)).
  intros [= _ <-]. repeat split.
Qed.

(** X20: whatever [int] makes of the typed text, the indices
    [choose_from_list] returns are positions of [options] (0-based), there
    is at least one, and exactly one when [allow_multiple] is off. *)
Theorem menu_indices_in_range
    (int : string -> option Z) (options : list string) (message : string)
    (allow_multiple : bool) (w w' : world) (indices : list Z) :
  choose_from_list int options message allow_multiple w
    = (Ret (Some indices), w') ->
  Forall (fun i => 0 <= i < len options) indices
  /\ indices <> []
  /\ (allow_multiple = false -> length indices = 1%nat).
Proof. apply menu_selection. Qed.

Lemma menu_indices_in_range_witness :
  Forall (fun i => 0 <= i < len ["skip"; "merge"; "edit"]) [0; 2; 0]
  /\ [0; 2; 0] <> []
  /\ (true = false -> length [0; 2; 0] = 1%nat).
Proof.
  apply (menu_indices_in_range decimal_int ["skip"; "merge"; "edit"]
           "What would you like to do?" true
           (fresh_world [Line "9"; Line "1, 3 ,1"; Line "2"] true)
           (fresh_world [Line "2"] true) [0; 2; 0]).
  reflexivity.
Defined.

(** X21: a menu without options can only be left by cancelling: it never
    returns a selection. *)
Theorem empty_menu_only_cancels
    (int : string -> option Z) (message : string) (allow_multiple : bool)
    (w w' : world) (result : option (list Z)) :
  choose_from_list int [] message allow_multiple w = (Ret result, w') ->
  result = None.
Proof.
  destruct result as [indices|]; [|reflexivity].
  unfold choose_from_list.
  destruct (choose_from_list_on int [] allow_multiple (stdin w))
    as [r pending] eqn:E.
  intros [= -> _].
  apply choose_from_list_on_selection in E as (typed & Ht).
  apply choose_reading_selection in Ht as (Hall & Hne & _).
  destruct indices as [|i indices]; [contradiction|].
  apply Forall_inv in Hall. unfold len in Hall. simpl in Hall. lia.
Qed.

Lemma empty_menu_only_cancels_witness : @None (list Z) = None.
Proof.
  apply (empty_menu_only_cancels decimal_int "What would you like to do?" false
           (fresh_world [Line "1"; Line "quit"] true) (fresh_world [] true) None).
  reflexivity.
Defined.

(** *** The menu under the recursion limit *)

Lemma no_cancel_reads_on typed :
  no_cancel typed ->
  String.eqb (strip typed) "0"
    || member (lower (strip typed)) ["cancel"; "c"; "q"; "quit"] = false.
Proof.
  intros [H0 Hword]. apply orb_false_iff. split.
  - apply String.eqb_neq, H0.
  - apply member_not_In, Hword.
Qed.

Lemma refused_choice_asks_again int options typed :
  refused_choice int options typed ->
  choose_reading int options false typed = None.
Proof.
  intros [Hcancel Hint]. unfold choose_reading. cbv zeta.
  rewrite (no_cancel_reads_on typed Hcancel). simpl.
  destruct Hint as [->|(k & -> & Hk)]; [reflexivity|]. simpl.
  destruct Hk as [Hk|Hk].
  - replace (k <? 1) with true by (symmetry; apply Z.ltb_lt; lia). reflexivity.
  - replace (len options <? k) with true by (symmetry; apply Z.ltb_lt; lia).
    rewrite orb_true_r. reflexivity.
Qed.

Lemma menu_limited_skips int options bad : forall depth pending,
  Forall (refused_choice int options) bad ->
  (length bad <= depth)%nat ->
  choose_from_list_limited_on int depth options false
    (map Line bad ++ pending)%list
  = choose_from_list_limited_on int (depth - length bad) options false pending.
Proof.
  induction bad as [|typed bad IH]; intros depth pending Hbad Hlen.
  - simpl. rewrite Nat.sub_0_r. reflexivity.
  - inversion Hbad as [|? ? Hty Hbad']; subst.
    destruct depth as [|depth]; [simpl in Hlen; lia|]. simpl.
    rewrite (refused_choice_asks_again int options typed Hty).
    apply IH; [exact Hbad' | simpl in Hlen; lia].
Qed.

Lemma menu_limited_exhausted int options bad : forall depth pending,
  Forall (refused_choice int options) bad ->
  (depth <= length bad)%nat ->
  choose_from_list_limited_on int depth options false
    (map Line bad ++ pending)%list
  = (Raise RecursionError, (map Line (drop depth bad) ++ pending)%list).
Proof.
  induction bad as [|typed bad IH]; intros depth pending Hbad Hlen.
  - destruct depth; [reflexivity | simpl in Hlen; lia].
  - inversion Hbad as [|? ? Hty Hbad']; subst.
    destruct depth as [|depth]; [reflexivity|]. simpl.
    rewrite (refused_choice_asks_again int options typed Hty).
    apply IH; [exact Hbad' | simpl in Hlen; lia].
Qed.

Lemma menu_limited_deep_enough int options allow_multiple pending :
  forall depth,
    (length pending < depth)%nat ->
    choose_from_list_limited_on int depth options allow_multiple pending
    = choose_from_list_on int options allow_multiple pending.
Proof.
  induction pending as [|[typed|] pending IH]; intros depth Hlen;
    (destruct depth as [|depth]; [simpl in Hlen; lia|]); simpl;
    [reflexivity| |reflexivity].
  destruct (choose_reading int options allow_multiple typed); [reflexivity|].
  apply IH. simpl in Hlen. lia.
Qed.

(** X22: in single-choice mode, after lines the menu refuses (no cancel,
    and not read by [int] as a number between 1 and the number of
    options), typing the number [k] of an option selects the index [k - 1]
    and leaves the later lines unread; this as long as the recursion limit
    allows one call per line read.  With [depth] calls allowed and at
    least [depth] refused lines, the menu raises [RecursionError] after
    reading [depth] of them. *)
Theorem typing_a_number_selects_it
    (int : string -> option Z) (depth : nat) (options : list string)
    (message : string) (bad : list string) (typed : string) (k : Z)
    (pending : list event) (w : world) :
  Forall (refused_choice int options) bad ->
  no_cancel typed ->
  int (strip typed) = Some k ->
  1 <= k <= len options ->
  stdin w = (map Line bad ++ Line typed :: pending)%list ->
  ((length bad < depth)%nat ->
   choose_from_list_limited int depth options message false w
   = (Ret (Some [k - 1]), set_stdin pending w))
  /\ ((depth <= length bad)%nat ->
      choose_from_list_limited int depth options message false w
      = (Raise RecursionError,
         set_stdin (map Line (drop depth bad) ++ Line typed :: pending)%list w)).
Proof.
  intros Hbad Hcancel Hint Hk Hin. unfold choose_from_list_limited.
  rewrite Hin. split.
  - intros Hlen. rewrite (menu_limited_skips int options bad) by (assumption || lia).
    destruct (depth - length bad)%nat as [|left] eqn:E; [lia|]. simpl.
    unfold choose_reading. cbv zeta.
    rewrite (no_cancel_reads_on typed Hcancel). simpl. rewrite Hint. simpl.
    replace (k <? 1) with false by (symmetry; apply Z.ltb_ge; lia).
    replace (len options <? k) with false by (symmetry; apply Z.ltb_ge; lia).
    reflexivity.
  - intros Hlen. rewrite (menu_limited_exhausted int options bad) by assumption.
    reflexivity.
Qed.

Lemma typing_a_number_selects_it_witness :
  ((length ["7"; "two"] < 3)%nat ->
   choose_from_list_limited decimal_int 3 ["skip"; "merge"; "edit"]
     "What would you like to do?" false
     (fresh_world [Line "7"; Line "two"; Line " 2 "; Line "1"] true)
   = (Ret (Some [2 - 1]),
      set_stdin [Line "1"]
        (fresh_world [Line "7"; Line "two"; Line " 2 "; Line "1"] true)))
  /\ ((3 <= length ["7"; "two"])%nat ->
      choose_from_list_limited decimal_int 3 ["skip"; "merge"; "edit"]
        "What would you like to do?" false
        (fresh_world [Line "7"; Line "two"; Line " 2 "; Line "1"] true)
      = (Raise RecursionError,
         set_stdin
           (map Line (drop 3 ["7"; "two"]) ++ Line " 2 " :: [Line "1"])%list
           (fresh_world [Line "7"; Line "two"; Line " 2 "; Line "1"] true))).
Proof.
  apply (typing_a_number_selects_it decimal_int 3 ["skip"; "merge"; "edit"]
           "What would you like to do?" ["7"; "two"] " 2 " 2 [Line "1"]).
  - constructor; [|constructor; [|constructor]].
    + split; [split; [discriminate|]|].
      * simpl. intros [H|[H|[H|[H|[]]]]]; discriminate.
      * right. exists 7. split; [reflexivity | right; unfold len; simpl; lia].
    + split; [split; [discriminate|]|].
      * simpl. intros [H|[H|[H|[H|[]]]]]; discriminate.
      * left. reflexivity.
  - split; [discriminate | simpl; intros [H|[H|[H|[H|[]]]]]; discriminate].
  - reflexivity.
  - unfold len. simpl. lia.
  - reflexivity.
Defined.

(** ** The issue prompt *)

Lemma edit_text_raises text message w e w' :
  edit_text_interactive text message w = (Raise e, w') ->
  e = EOFError \/ e = KeyboardInterrupt.
Proof.
  unfold edit_text_interactive, try_except, bind, import_prompt_toolkit.
  destruct (has_prompt_toolkit w).
  - unfold edit_with_prompt_toolkit, try_except, bind, prompt, read_event.
    destruct (stdin w) as [|[edited|] pending]; unfold ret; simpl.
    + intros [= <- _]. left. reflexivity.
    + discriminate.
    + discriminate.
  - simpl. unfold edit_with_input, bind, input, read_event.
    destruct (stdin w) as [|[typed|] pending].
    + intros [= <- _]. left. reflexivity.
    + cbv zeta. repeat case_if; unfold ret; discriminate.
    + intros [= <- _]. right. reflexivity.
Qed.

(** The three dictionaries [show_issue_and_prompt_fix] builds. *)
Lemma show_issue_shape int issue_description problematic_content
    suggested_fixes allow_edit w w' d :
  show_issue_and_prompt_fix int issue_description problematic_content
    suggested_fixes allow_edit w = (Ret (Some d), w') ->
  (exists i,
     0 <= i < len suggested_fixes
     /\ d = <["action" := PStr "apply_fix"]> (<["fix_index" := PInt i]> ∅))
  \/ (allow_edit = true
      /\ exists edited,
           d = <["action" := PStr "edit"]>
                 (<["edited_content" := PStr edited]> ∅))
  \/ d = <["action" := PStr "skip"]> ∅.
Proof.
  unfold show_issue_and_prompt_fix. cbv zeta. unfold bind at 1.
  match goal with |- context [choose_from_list int ?o ?m false w] =>
    destruct (choose_from_list int o m false w) as [[[choices|]|e] w1] eqn:E end;
    [|discriminate|discriminate].
  apply menu_selection in E as (Hall & Hne & _).
  destruct choices as [|choice_index choices]; [contradiction|].
  apply Forall_inv in Hall.
  destruct (choice_index <? len suggested_fixes) eqn:Efix.
  - unfold ret. intros [= <- _]. left. exists choice_index.
    apply Z.ltb_lt in Efix. split; [lia | reflexivity].
  - destruct (allow_edit && (choice_index =? len suggested_fixes)) eqn:Eedit.
    + apply andb_true_iff in Eedit as [-> _]. unfold bind at 1.
      destruct (edit_text_interactive problematic_content "Edit the content:" w1)
        as [[[edited|]|e] w2]; unfold ret; [|discriminate|discriminate].
      intros [= <- _]. right. left. split; [reflexivity|]. eexists. reflexivity.
    + unfold ret. intros [= <- _]. right. right. reflexivity.
Qed.

(** X23: a dictionary returned by [show_issue_and_prompt_fix] has one of
    three shapes: action "apply_fix" with a "fix_index" that is a position
    of [suggested_fixes]; action "edit" with the "edited_content", only
    when [allow_edit] is on; or action "skip" alone.  The action is never
    "cancel". *)
Theorem issue_decision_shapes
    (int : string -> option Z) (issue_description problematic_content : string)
    (suggested_fixes : list string) (allow_edit : bool) (w w' : world)
    (d : gmap string pyval) :
  show_issue_and_prompt_fix int issue_description problematic_content
    suggested_fixes allow_edit w = (Ret (Some d), w') ->
  ((exists i,
      0 <= i < len suggested_fixes
      /\ d = <["action" := PStr "apply_fix"]> (<["fix_index" := PInt i]> ∅))
   \/ (allow_edit = true
       /\ exists edited,
            d = <["action" := PStr "edit"]>
                  (<["edited_content" := PStr edited]> ∅))
   \/ d = <["action" := PStr "skip"]> ∅)
  /\ d !! "action" <> Some (PStr "cancel").
Proof.
  intros H. apply show_issue_shape in H. split; [exact H|].
  destruct H as [(i & _ & ->)|[(_ & edited & ->)| ->]];
    rewrite lookup_insert_eq; discriminate.
Qed.

Lemma issue_decision_shapes_witness :
  let d : gmap string pyval :=
    <["action" := PStr "apply_fix"]> (<["fix_index" := PInt 1]> ∅) in
  ((exists i,
      0 <= i < len ["quote the price"; "drop the comma"]
      /\ d = <["action" := PStr "apply_fix"]> (<["fix_index" := PInt i]> ∅))
   \/ (true = true
       /\ exists edited,
            d = <["action" := PStr "edit"]>
                  (<["edited_content" := PStr edited]> ∅))
   \/ d = <["action" := PStr "skip"]> ∅)
  /\ d !! "action" <> Some (PStr "cancel").
Proof.
  apply (issue_decision_shapes decimal_int "Line has 12 fields"
           "1001,John,Laptop,$1,299.99" ["quote the price"; "drop the comma"] true
           (fresh_world [Line "2"; Line "y"] true) (fresh_world [Line "y"] true)).
  vm_compute. reflexivity.
Defined.

(** X24: [show_issue_and_prompt_fix] never raises [IndexError]: the menu
    returns no empty selection, so [choices[0]] cannot fail. *)
Theorem issue_prompt_never_raises_index_error
    (int : string -> option Z) (issue_description problematic_content : string)
    (suggested_fixes : list string) (allow_edit : bool) (w w' : world) (e : exn) :
  show_issue_and_prompt_fix int issue_description problematic_content
    suggested_fixes allow_edit w = (Raise e, w') ->
  e <> IndexError.
Proof.
  unfold show_issue_and_prompt_fix. cbv zeta. unfold bind at 1.
  match goal with |- context [choose_from_list int ?o ?m false w] =>
    destruct (choose_from_list int o m false w) as [[[choices|]|e0] w1] eqn:E end.
  - apply menu_selection in E as (_ & Hne & _).
    destruct choices as [|choice_index choices]; [contradiction|].
    destruct (choice_index <? len suggested_fixes); [discriminate|].
    destruct (allow_edit && (choice_index =? len suggested_fixes)); [|discriminate].
    unfold bind at 1.
    destruct (edit_text_interactive problematic_content "Edit the content:" w1)
      as [[[edited|]|e1] w2] eqn:E1; unfold ret; [discriminate|discriminate|].
    intros [= <- _].
    destruct (edit_text_raises _ _ _ _ _ E1) as [->| ->]; discriminate.
  - discriminate.
  - intros [= <- _]. unfold choose_from_list in E.
    match type of E with context [choose_from_list_on int ?o false (stdin w)] =>
      destruct (choose_from_list_on int o false (stdin w)) as [r p] eqn:E0 end.
    injection E as -> _.
    destruct (choose_from_list_raises _ _ _ _ _ _ E0) as [->| ->]; discriminate.
Qed.

Lemma issue_prompt_never_raises_index_error_witness :
  KeyboardInterrupt <> IndexError.
Proof.
  apply (issue_prompt_never_raises_index_error decimal_int "Line has 12 fields"
           "1001,John,Laptop,$1,299.99" ["quote the price"; "drop the comma"] true
           (fresh_world [Line "3"; CtrlC] false) (fresh_world [] false)).
  reflexivity.
Defined.

(** ** [BaseTool.run] *)

(** X25: [run] lets out no exception that is an instance of [Exception].
    When [validate_input], or [process] after a passed validation, raises
    one, [run] logs "Error during execution: ..." and returns [None]; when
    they raise an exception that is not an instance of [Exception]
    ([KeyboardInterrupt]), [run] raises it. *)
Theorem run_turns_exceptions_into_none
    {A : Type} (name version : string) (describe : exn -> string)
    (validate_input : M bool) (process_method : M (option A)) (w : world) :
  let started := add_record (INFO, "Starting " +:+ name +:+ " v" +:+ version) w in
  let run := BaseTool.run name version describe validate_input process_method in
  (forall e w', run w = (Raise e, w') -> is_Exception e = false)
  /\ (forall e w1,
        validate_input started = (Raise e, w1)
        \/ (exists validated,
              validate_input started = (Ret true, validated)
              /\ process_method validated = (Raise e, w1)) ->
        (is_Exception e = true ->
         run w
         = (Ret None,
            add_record (ERROR, "Error during execution: " +:+ describe e) w1))
        /\ (is_Exception e = false -> run w = (Raise e, w1))).
Proof.
  intros started run. subst started run. split.
  - intros e w'. unfold BaseTool.run.
    match goal with |- context [match ?body w with _ => _ end] =>
      destruct (body w) as [[result|e0] w1] end.
    + discriminate.
    + destruct (is_Exception e0) eqn:E.
      * unfold bind, logger_error, ret. discriminate.
      * intros [= <- _]. exact E.
  - intros e w1 Hraise.
    assert (Hbody :
      (logger_info ("Starting " +:+ name +:+ " v" +:+ version) ;;
       valid <- validate_input ;;
       if negb valid then
         logger_error "Input validation failed" ;;
         ret None
       else
         result <- process_method ;;
         logger_info (name +:+ " completed successfully") ;;
         ret result) w = (Raise e, w1)).
    { unfold bind at 1, logger_info. unfold bind at 1.
      destruct Hraise as [Hv|(validated & Hv & Hp)]; rewrite Hv; [reflexivity|].
      cbv beta iota delta [negb]. unfold bind at 1. rewrite Hp. reflexivity. }
    unfold BaseTool.run. rewrite Hbody. split; intros ->; reflexivity.
Qed.

Lemma run_turns_exceptions_into_none_witness :
  let raised :=
    World [] true sample_file
      [(INFO, "Starting CSV Repair Tool v1.0.0");
       (INFO, "Starting CSV structure repair...");
       (INFO, "Detecting field mismatches...");
       (INFO, "Header has 3 fields");
       (INFO, "Found 2 lines needing repair")] 0 in
  BaseTool.run "CSV Repair Tool" "1.0.0" (fun _ => "EOF when reading a line")
    (ret true) (process sample_file) (fresh_world [] true)
  = (Ret None,
     add_record (ERROR, "Error during execution: " +:+ "EOF when reading a line")
       raised).
Proof.
  intros raised.
  refine (proj1 (proj2 (run_turns_exceptions_into_none "CSV Repair Tool" "1.0.0"
                          (fun _ => "EOF when reading a line") (ret true)
                          (process sample_file) (fresh_world [] true))
                   EOFError raised _) _).
  - right. eexists. split; reflexivity.
  - reflexivity.
Defined.

(** With issues to present, the session starts by asking; what the first
    question raises, the session raises. *)
Lemma first_question_raises lines issues w e pending :
  issues <> [] ->
  confirm_action_on true (stdin w) = (Raise e, pending) ->
  _interactive_repair lines issues w
  = (Raise e, set_lines lines (set_stdin pending w)).
Proof.
  intros Hne Hask.
  destruct issues as [|[[line_num line_content] issue_desc] issues];
    [contradiction|].
  unfold _interactive_repair, bind at 1, bind_lines. simpl repair_loop.
  unfold bind at 1. rewrite confirm_action_set_lines. unfold confirm_action.
  rewrite Hask. reflexivity.
Qed.

Lemma session_needs_the_terminal lines issues w :
  issues <> [] ->
  (stdin w = [] ->
   exists w', _interactive_repair lines issues w = (Raise EOFError, w')
              /\ repairs_made w' = repairs_made w)
  /\ (forall pending, stdin w = CtrlC :: pending ->
      exists w', _interactive_repair lines issues w = (Raise KeyboardInterrupt, w')).
Proof.
  intros Hne. split.
  - intros Hs. eexists. split.
    + apply first_question_raises; [exact Hne|]. rewrite Hs. reflexivity.
    + reflexivity.
  - intros pending Hs. eexists.
    apply first_question_raises; [exact Hne|]. rewrite Hs. reflexivity.
Qed.

(** X26: the repair tool run on a file with issues, when validation
    passes: if the terminal is at its end, [run] returns [None], with
    [repairs_made] as validation left it; if the user presses Ctrl+C at
    the first question, [KeyboardInterrupt] leaves [run]. *)
Theorem run_at_the_first_question
    (describe : exn -> string) (validate_input : M bool)
    (file_lines : list string) (issues : list issue) (w w1 wd : world) :
  validate_input (add_record (INFO, "Starting CSV Repair Tool v1.0.0") w)
    = (Ret true, w1) ->
  _detect_field_mismatches file_lines w = (Ret issues, wd) ->
  issues <> [] ->
  (stdin w1 = [] ->
   exists w',
     CSVRepairTool_run describe validate_input file_lines w = (Ret None, w')
     /\ repairs_made w' = repairs_made w1)
  /\ (forall pending,
        stdin w1 = CtrlC :: pending ->
        exists w',
          CSVRepairTool_run describe validate_input file_lines w
          = (Raise KeyboardInterrupt, w')).
Proof.
  intros Hval Hdet Hne.
  destruct file_lines as [|header data]; [injection Hdet as <- _; contradiction|].
  destruct (detect_value header data w) as (wd' & Hdet' & _).
  assert (issues = detect_loop (_count_fields_respecting_quotes header) 2 data)
    as Hiss by congruence.
  destruct (process_entry header data w1) as (w0 & Hs0 & Hr0 & Hentry).
  cbv zeta in Hentry. rewrite <- Hiss in Hentry.
  destruct issues as [|iss issues]; [contradiction|].
  cbv beta iota delta [negb falsy_list] in Hentry.
  unfold bind at 1, logger_info in Hentry. unfold bind at 1 in Hentry.
  cbv beta iota in Hentry.
  match type of Hentry with context [_interactive_repair _ _ ?w2] =>
    destruct (session_needs_the_terminal (header :: data) (iss :: issues) w2 Hne)
      as [Heof Hint] end.
  split.
  - intros Hs. destruct Heof as (w2 & Hrun & Hr2); [simpl; congruence|].
    unfold CSVRepairTool_run, BaseTool.run, bind at 1, logger_info.
    unfold bind at 1.
    change ("Starting " +:+ "CSV Repair Tool" +:+ " v" +:+ "1.0.0")
      with "Starting CSV Repair Tool v1.0.0".
    rewrite Hval. cbv beta iota delta [negb]. unfold bind at 1.
    rewrite Hentry, Hrun. simpl.
    unfold bind, logger_error, ret. eexists. split; [reflexivity|]. simpl.
    simpl in Hr2. congruence.
  - intros pending Hs. destruct (Hint pending) as (w2 & Hrun); [simpl; congruence|].
    unfold CSVRepairTool_run, BaseTool.run, bind at 1, logger_info.
    unfold bind at 1.
    change ("Starting " +:+ "CSV Repair Tool" +:+ " v" +:+ "1.0.0")
      with "Starting CSV Repair Tool v1.0.0".
    rewrite Hval. cbv beta iota delta [negb]. unfold bind at 1.
    rewrite Hentry, Hrun. simpl. eexists. reflexivity.
Qed.

Lemma run_at_the_first_question_witness :
  (stdin (add_record (INFO, "Starting CSV Repair Tool v1.0.0")
            (fresh_world [] true)) = [] ->
   exists w',
     CSVRepairTool_run (fun _ => "EOF when reading a line") (ret true)
       sample_file (fresh_world [] true) = (Ret None, w')
     /\ repairs_made w'
        = repairs_made (add_record (INFO, "Starting CSV Repair Tool v1.0.0")
                          (fresh_world [] true)))
  /\ (forall pending,
        stdin (add_record (INFO, "Starting CSV Repair Tool v1.0.0")
                 (fresh_world [] true)) = CtrlC :: pending ->
        exists w',
          CSVRepairTool_run (fun _ => "EOF when reading a line") (ret true)
            sample_file (fresh_world [] true)
          = (Raise KeyboardInterrupt, w')).
Proof.
  apply (run_at_the_first_question (fun _ => "EOF when reading a line") (ret true)
           sample_file sample_issues (fresh_world [] true)
           (add_record (INFO, "Starting CSV Repair Tool v1.0.0")
              (fresh_world [] true))
           (add_record (INFO, "Header has 3 fields") (fresh_world [] true)));
    [reflexivity | reflexivity | discriminate].
Defined.

(** ** [clean_string] and [normalize_whitespace] *)

Lemma word_cons c s :
  isspace c = false -> (s = "" \/ is_word s = true) -> is_word (String c s) = true.
Proof.
  intros Hc [->|Hs]; unfold is_word in *; simpl; rewrite Hc; [reflexivity|].
  apply andb_true_iff in Hs as [_ Hs]. exact Hs.
Qed.

Lemma word_inv c s :
  is_word (String c s) = true ->
  isspace c = false /\ (s = "" \/ is_word s = true).
Proof.
  unfold is_word. simpl. intros H. apply andb_true_iff in H as [Hc Hs].
  apply negb_true_iff in Hc. split; [exact Hc|].
  destruct s; [left; reflexivity | right]. exact Hs.
Qed.

Lemma word_not_empty : is_word "" = false.
Proof. reflexivity. Qed.

Lemma word_continues_word s : is_word s = true -> word_continues s = true.
Proof.
  destruct s as [|c s]; [discriminate|]. intros H.
  apply word_inv in H as [Hc _]. simpl. rewrite Hc. reflexivity.
Qed.

Lemma split_whitespace_words t :
  Forall (fun word => is_word word = true) (split_whitespace t).
Proof.
  induction t as [|c t IH]; [constructor|]. simpl.
  destruct (isspace c) eqn:Hc; [exact IH|].
  destruct (word_continues t).
  - destruct (split_whitespace t) as [|word words].
    + constructor; [apply word_cons; auto | constructor].
    + inversion IH as [|? ? Hw Hws]; subst.
      constructor; [apply word_cons; auto | exact Hws].
  - constructor; [apply word_cons; auto | exact IH].
Qed.

Lemma word_continues_replace old t :
  isspace old = true ->
  word_continues (replace_char old space t) = word_continues t.
Proof.
  intros Ho. destruct t as [|c t]; [reflexivity|]. simpl.
  destruct (Ascii.eqb c old) eqn:E; [|reflexivity].
  apply Ascii.eqb_eq in E. subst c. rewrite Ho. reflexivity.
Qed.

(** Turning a whitespace character into a space moves no word. *)
Lemma split_whitespace_replace old t :
  isspace old = true ->
  split_whitespace (replace_char old space t) = split_whitespace t.
Proof.
  intros Ho. induction t as [|c t IH]; [reflexivity|]. simpl.
  rewrite (word_continues_replace old t Ho), IH.
  destruct (Ascii.eqb c old) eqn:E; [|reflexivity].
  apply Ascii.eqb_eq in E. subst c. rewrite Ho. reflexivity.
Qed.

Lemma split_whitespace_word w : is_word w = true -> split_whitespace w = [w].
Proof.
  induction w as [|c w IH]; [discriminate|]. intros H.
  apply word_inv in H as [Hc [->|Hw]]; simpl; rewrite Hc; [reflexivity|].
  rewrite (word_continues_word w Hw), (IH Hw). reflexivity.
Qed.

Lemma split_whitespace_word_space w rest :
  is_word w = true ->
  split_whitespace (w +:+ String space rest) = w :: split_whitespace rest.
Proof.
  induction w as [|c w IH]; [discriminate|]. intros H.
  apply word_inv in H as [Hc [->|Hw]]; simpl; rewrite Hc; [reflexivity|].
  rewrite (IH Hw).
  destruct w as [|d w]; [discriminate|]. apply word_inv in Hw as [Hd _].
  simpl. rewrite Hd. reflexivity.
Qed.

(** Splitting what was joined with single spaces gives the words back. *)
Lemma split_whitespace_join words :
  Forall (fun word => is_word word = true) words ->
  split_whitespace (String.concat " " words) = words.
Proof.
  induction 1 as [|w words Hw Hws IH]; [reflexivity|].
  destruct words as [|w' words]; [apply split_whitespace_word, Hw|].
  change (String.concat " " (w :: w' :: words))
    with (w +:+ String space (String.concat " " (w' :: words))).
  rewrite (split_whitespace_word_space _ _ Hw), IH. reflexivity.
Qed.

Lemma lstrip_word_head s : word_continues s = true -> lstrip s = s.
Proof.
  destruct s as [|c s]; [reflexivity|]. simpl.
  destruct (isspace c); [discriminate | reflexivity].
Qed.

Lemma rstrip_word w : is_word w = true -> rstrip w = w.
Proof.
  induction w as [|c w IH]; [discriminate|]. intros H.
  apply word_inv in H as [Hc [->|Hw]]; simpl.
  - rewrite Hc. reflexivity.
  - rewrite (IH Hw). destruct w; [discriminate | reflexivity].
Qed.

Lemma rstrip_app s t : t <> "" -> rstrip t = t -> rstrip (s +:+ t) = s +:+ t.
Proof.
  intros Hne Ht. induction s as [|c s IH]; [exact Ht|].
  change (String c s +:+ t) with (String c (s +:+ t)).
  assert (Hst : s +:+ t <> "") by (destruct s; [exact Hne | discriminate]).
  simpl rstrip. rewrite IH. destruct (s +:+ t); [contradiction | reflexivity].
Qed.

Lemma rstrip_cons_fixed c t :
  t <> "" -> rstrip t = t -> rstrip (String c t) = String c t.
Proof.
  intros Hne Ht. simpl. rewrite Ht. destruct t; [contradiction | reflexivity].
Qed.

Lemma word_continues_not_empty s : word_continues s = true -> s <> "".
Proof. destruct s; [discriminate | discriminate]. Qed.

Lemma join_words_fixed words :
  Forall (fun word => is_word word = true) words ->
  rstrip (String.concat " " words) = String.concat " " words
  /\ (words <> [] -> word_continues (String.concat " " words) = true).
Proof.
  induction 1 as [|w words Hw Hws [IHr IHc]]; [split; [reflexivity | contradiction]|].
  destruct words as [|w' words].
  - split; [apply rstrip_word, Hw | intros _; apply word_continues_word, Hw].
  - change (String.concat " " (w :: w' :: words))
      with (w +:+ String space (String.concat " " (w' :: words))).
    split.
    + apply rstrip_app; [discriminate|].
      apply rstrip_cons_fixed; [|exact IHr].
      apply word_continues_not_empty, IHc. discriminate.
    + intros _. destruct w as [|c w]; [discriminate|].
      apply word_inv in Hw as [Hc _]. simpl. rewrite Hc. reflexivity.
Qed.

Lemma strip_join_words words :
  Forall (fun word => is_word word = true) words ->
  strip (String.concat " " words) = String.concat " " words.
Proof.
  intros H. destruct (join_words_fixed words H) as [Hr Hc]. unfold strip.
  destruct words as [|w words]; [reflexivity|].
  rewrite lstrip_word_head by (apply Hc; discriminate). exact Hr.
Qed.

(** [clean_string] is the words of the text joined by single spaces. *)
Lemma clean_string_join text :
  clean_string text = String.concat " " (split_whitespace text).
Proof.
  unfold clean_string. cbv zeta.
  rewrite !split_whitespace_replace by reflexivity.
  apply strip_join_words, split_whitespace_words.
Qed.

Lemma join_split_idempotent text :
  String.concat " " (split_whitespace (String.concat " " (split_whitespace text)))
  = String.concat " " (split_whitespace text).
Proof. rewrite split_whitespace_join by apply split_whitespace_words. reflexivity. Qed.

Lemma double_space_cons a b rest :
  double_space (String a (String b rest))
  = (isspace a && isspace b) || double_space (String b rest).
Proof. reflexivity. Qed.

(** A word put before a text that starts with a visible character or with
    one space followed by one: no two whitespace characters meet. *)
Lemma double_space_word_before w rest :
  is_word w = true ->
  word_continues rest = true ->
  double_space rest = false ->
  double_space (w +:+ String space rest) = false.
Proof.
  intros Hw Hhead Hrest. induction w as [|c w IH]; [discriminate|].
  apply word_inv in Hw as [Hc [->|Hw]].
  - change (String c "" +:+ String space rest) with (String c (String space rest)).
    destruct rest as [|d rest]; [discriminate|]. simpl in Hhead.
    apply negb_true_iff in Hhead.
    rewrite !double_space_cons, Hc, Hhead, Hrest. reflexivity.
  - destruct w as [|d w]; [discriminate|].
    change (String c (String d w) +:+ String space rest)
      with (String c (String d (w +:+ String space rest))).
    rewrite double_space_cons, Hc. simpl. apply (IH Hw).
Qed.

Lemma double_space_word w : is_word w = true -> double_space w = false.
Proof.
  induction w as [|c w IH]; [discriminate|]. intros Hw.
  apply word_inv in Hw as [Hc [->|Hw]]; [reflexivity|].
  destruct w as [|d w]; [discriminate|].
  rewrite double_space_cons, Hc. simpl. apply (IH Hw).
Qed.

Lemma only_spaces_word w :
  is_word w = true ->
  Forall (fun c => isspace c = true -> c = space) (list_ascii_of_string w).
Proof.
  induction w as [|c w IH]; [discriminate|]. intros Hw.
  apply word_inv in Hw as [Hc [->|Hw]]; simpl;
    (constructor; [congruence|]); [constructor | apply IH, Hw].
Qed.

Lemma chars_app s t :
  list_ascii_of_string (s +:+ t)
  = (list_ascii_of_string s ++ list_ascii_of_string t)%list.
Proof. induction s as [|c s IH]; [reflexivity|]. simpl. rewrite IH. reflexivity. Qed.

Lemma join_words_spacing words :
  Forall (fun word => is_word word = true) words ->
  double_space (String.concat " " words) = false
  /\ Forall (fun c => isspace c = true -> c = space)
            (list_ascii_of_string (String.concat " " words)).
Proof.
  induction 1 as [|w words Hw Hws [IHd IHs]]; [split; [reflexivity | constructor]|].
  destruct words as [|w' words].
  - split; [apply double_space_word, Hw | apply only_spaces_word, Hw].
  - change (String.concat " " (w :: w' :: words))
      with (w +:+ String space (String.concat " " (w' :: words))).
    destruct (join_words_fixed (w' :: words) Hws) as [_ Hhead].
    specialize (Hhead ltac:(discriminate)). split.
    + apply double_space_word_before; assumption.
    + rewrite chars_app. apply Forall_app. split; [apply only_spaces_word, Hw|].
      simpl. constructor; [reflexivity | exact IHs].
Qed.

(** X27: the string [clean_string] returns has nothing left to strip,
    holds no two whitespace characters in a row, and its only whitespace
    is the space. *)
Theorem clean_string_is_tidy (text : string) :
  strip (clean_string text) = clean_string text
  /\ double_space (clean_string text) = false
  /\ Forall (fun c => isspace c = true -> c = space)
            (list_ascii_of_string (clean_string text)).
Proof.
  rewrite clean_string_join.
  pose proof (split_whitespace_words text) as Hw.
  split; [apply strip_join_words, Hw | apply join_words_spacing, Hw].
Qed.

(** X28: [clean_string] is idempotent. *)
Theorem clean_string_idempotent (text : string) :
  clean_string (clean_string text) = clean_string text.
Proof. rewrite !clean_string_join. apply join_split_idempotent. Qed.

Lemma visible_app s t : visible (s +:+ t) = (visible s ++ visible t)%list.
Proof.
  unfold visible. induction s as [|c s IH]; [reflexivity|]. simpl.
  rewrite IH. destruct (negb (isspace c)); reflexivity.
Qed.

Lemma visible_join words :
  visible (String.concat " " words) = List.concat (map visible words).
Proof.
  induction words as [|w words IH]; [reflexivity|].
  destruct words as [|w' words]; [simpl; rewrite app_nil_r; reflexivity|].
  change (String.concat " " (w :: w' :: words))
    with (w +:+ String space (String.concat " " (w' :: words))).
  rewrite visible_app. simpl List.concat. f_equal. exact IH.
Qed.

Lemma visible_cons c s :
  visible (String c s) = if isspace c then visible s else c :: visible s.
Proof. unfold visible. simpl. destruct (isspace c); reflexivity. Qed.

Lemma visible_split text :
  List.concat (map visible (split_whitespace text)) = visible text.
Proof.
  induction text as [|c t IH]; [reflexivity|]. simpl split_whitespace.
  rewrite visible_cons.
  destruct (isspace c) eqn:Hc; [exact IH|].
  destruct (word_continues t) eqn:Hwc.
  - destruct (split_whitespace t) as [|word words]; cbn [map List.concat] in *;
      rewrite visible_cons, Hc, <- IH; reflexivity.
  - cbn [map List.concat]. rewrite visible_cons, Hc, IH. reflexivity.
Qed.

(** X29: [clean_string] keeps every character that is not whitespace, in
    order, and adds none. *)
Theorem clean_string_keeps_visible_text (text : string) :
  visible (clean_string text) = visible text.
Proof. rewrite clean_string_join, visible_join. apply visible_split. Qed.

Lemma split_on_length sep s :
  Z.of_nat (length (split_on sep s)) = 1 + count sep s.
Proof.
  induction s as [|c s IH]; [reflexivity|]. simpl.
  destruct (Ascii.eqb c sep).
  - simpl length. lia.
  - destruct (split_on sep s) as [|piece pieces] eqn:E;
      [exfalso; exact (split_on_not_nil sep s E)|].
    simpl length in *. lia.
Qed.

Lemma split_on_no_sep sep a : count sep a = 0 -> split_on sep a = [a].
Proof.
  induction a as [|c a IH]; [reflexivity|]. intros H.
  apply count_cons_zero in H as [Hc Ha]. simpl. rewrite Hc, (IH Ha). reflexivity.
Qed.

Lemma split_on_app sep a b :
  count sep a = 0 ->
  split_on sep (a +:+ String sep b) = a :: split_on sep b.
Proof.
  induction a as [|c a IH]; intros H.
  - simpl. rewrite Ascii.eqb_refl. reflexivity.
  - apply count_cons_zero in H as [Hc Ha]. simpl. rewrite Hc, (IH Ha). reflexivity.
Qed.

(** Splitting at the separator what was joined with it gives the pieces
    back, when no piece holds the separator. *)
Lemma split_on_join sep pieces :
  pieces <> [] ->
  Forall (fun piece => count sep piece = 0) pieces ->
  split_on sep (String.concat (String sep EmptyString) pieces) = pieces.
Proof.
  intros Hne H. induction H as [|p pieces Hp Hps IH]; [contradiction|].
  destruct pieces as [|p' pieces]; [apply split_on_no_sep, Hp|].
  change (String.concat (String sep "") (p :: p' :: pieces))
    with (p +:+ String sep (String.concat (String sep "") (p' :: pieces))).
  rewrite (split_on_app _ _ _ Hp), IH by discriminate. reflexivity.
Qed.

Lemma count_cons c d s :
  count c (String d s) = (if Ascii.eqb d c then 1 else 0) + count c s.
Proof. reflexivity. Qed.

Lemma count_join sep pieces :
  pieces <> [] ->
  Forall (fun piece => count sep piece = 0) pieces ->
  count sep (String.concat (String sep EmptyString) pieces)
  = Z.of_nat (length pieces) - 1.
Proof.
  intros Hne H. induction H as [|p pieces Hp Hps IH]; [contradiction|].
  destruct pieces as [|p' pieces]; [simpl; rewrite Hp; reflexivity|].
  change (String.concat (String sep "") (p :: p' :: pieces))
    with (p +:+ String sep (String.concat (String sep "") (p' :: pieces))).
  rewrite count_append, Hp, count_cons, Ascii.eqb_refl, IH by discriminate.
  simpl length. lia.
Qed.

Lemma count_word c w : isspace c = true -> is_word w = true -> count c w = 0.
Proof.
  intros Hc. induction w as [|d w IH]; [discriminate|]. intros Hw.
  apply word_inv in Hw as [Hd Hw]. simpl.
  assert (Ascii.eqb d c = false) as ->
    by (apply Ascii.eqb_neq; intros ->; congruence).
  destruct Hw as [->|Hw]; [reflexivity | apply IH, Hw].
Qed.

(** Words joined by spaces hold no line feed. *)
Lemma count_lf_join_words words :
  Forall (fun word => is_word word = true) words ->
  count lf (String.concat " " words) = 0.
Proof.
  induction 1 as [|w words Hw Hws IH]; [reflexivity|].
  destruct words as [|w' words]; [apply count_word; [reflexivity | exact Hw]|].
  change (String.concat " " (w :: w' :: words))
    with (w +:+ String space (String.concat " " (w' :: words))).
  rewrite count_append, (count_word lf w eq_refl Hw), count_cons, IH.
  reflexivity.
Qed.

(** X30: [normalize_whitespace] keeps the line breaks of the text, as
    many as before, and is idempotent. *)
Theorem normalize_whitespace_keeps_lines (text : string) :
  occurrences lf (normalize_whitespace text) = occurrences lf text
  /\ normalize_whitespace (normalize_whitespace text)
     = normalize_whitespace text.
Proof.
  unfold normalize_whitespace. cbv zeta.
  set (tidy := fun line => String.concat " " (split_whitespace line)).
  assert (Hclean : Forall (fun piece => count lf piece = 0)
                          (map tidy (split_on lf text))).
  { apply List.Forall_forall. intros piece Hin.
    apply in_map_iff in Hin as (line & <- & _).
    apply count_lf_join_words, split_whitespace_words. }
  assert (Hne : map tidy (split_on lf text) <> []).
  { pose proof (split_on_not_nil lf text).
    destruct (split_on lf text); [contradiction | discriminate]. }
  split.
  - apply Nat2Z.inj. rewrite <- !count_occurrences.
    change newline with (String lf EmptyString).
    rewrite (count_join lf _ Hne Hclean), length_map.
    pose proof (split_on_length lf text). lia.
  - change newline with (String lf EmptyString).
    rewrite (split_on_join lf _ Hne Hclean), map_map. f_equal.
    apply map_ext. intros line. apply join_split_idempotent.
Qed.
